(** * DMX512 receiver and decoder (Core/Src/DMX512.c, Core/Inc/DMX512.h)

    Shallow embedding of the DMX512 module of the AnimLED board firmware and
    the properties of its frame receiver, ready flag, decoder, dimmer and
    channel-address configuration.

    Conventions.
    - C integers are [Z]; every conversion to a fixed-width unsigned type is
      written out with [uint8], [uint16] or [uint32].
    - Pointers are [Z] addresses, [NULL] is [0].
    - The file-scope variables of DMX512.c are the fields of [dmx_state];
      every function of the module is a function on that record.
    - Caller-owned [DMX_DataTypeDef] objects live in a store
      [gmap Z DMX_DataTypeDef]; a function that dereferences a pointer or
      indexes [dmxFrame] returns [option], where [None] stands for a read or a
      write outside any object (undefined behaviour in C). *)

From Stdlib Require Import ZArith Lia Bool.
From stdpp Require Import base option list gmap.

Open Scope Z_scope.

(** ** Constants of DMX512.h *)

Definition DMX_FRAME_SIZE : Z := 513.
Definition DMX_START_CODE : Z := 0.
Definition DMX_CHANNELS_USED : Z := 5.
Definition DMX_CHANNEL_MIN : Z := 1.
Definition DMX_CHANNEL_MAX : Z := 506.

Definition DMX_OFFSET_RED : Z := 0.
Definition DMX_OFFSET_GREEN : Z := 1.
Definition DMX_OFFSET_BLUE : Z := 2.
Definition DMX_OFFSET_DIMMER : Z := 3.
Definition DMX_OFFSET_FLASH : Z := 4.

Definition NULL : Z := 0.

(** ** Fixed-width unsigned integers *)

Definition uint8 (z : Z) : Z := z mod 2 ^ 8.
Definition uint16 (z : Z) : Z := z mod 2 ^ 16.
Definition uint32 (z : Z) : Z := z mod 2 ^ 32.

Definition is_uint8 (z : Z) : Prop := 0 <= z < 2 ^ 8.
Definition is_uint16 (z : Z) : Prop := 0 <= z < 2 ^ 16.
Definition is_uint32 (z : Z) : Prop := 0 <= z < 2 ^ 32.

(** ** Data *)

(** [DMX_DataTypeDef]: five [uint8_t] fields. *)
Record DMX_DataTypeDef : Type := mkData {
  red : Z;
  green : Z;
  blue : Z;
  dimmer : Z;
  flash : Z
}.

Definition data_wf (d : DMX_DataTypeDef) : Prop :=
  is_uint8 (red d) /\ is_uint8 (green d) /\ is_uint8 (blue d) /\
  is_uint8 (dimmer d) /\ is_uint8 (flash d).

(** The file-scope variables of DMX512.c.  [hal_rx_requests] is not a
    variable of the module: it logs the handles passed to
    [HAL_UART_Receive_IT], most recent first, so that re-arming of the
    reception is visible in the state. *)
Record dmx_state : Type := mkState {
  huart_dmx : Z;               (* static UART_HandleTypeDef *huart_dmx *)
  dmxChannel : Z;              (* static uint8_t dmxChannel *)
  totalFramesReceived : Z;     (* static uint32_t *)
  errorFramesReceived : Z;     (* static uint32_t *)
  dmxFlag : Z;                 (* volatile uint8_t *)
  indexDmx : Z;                (* volatile uint16_t *)
  dmxFrame : list Z;           (* uint8_t dmxFrame[DMX_FRAME_SIZE] *)
  rxBuf : Z;                   (* uint8_t rxBuf[1] *)
  hal_rx_requests : list Z
}.

(** The static initialisers of DMX512.c. *)
Definition initial_state : dmx_state :=
  {| huart_dmx := NULL;
     dmxChannel := 1;
     totalFramesReceived := 0;
     errorFramesReceived := 0;
     dmxFlag := 0;
     indexDmx := 0;
     dmxFrame := replicate (Z.to_nat DMX_FRAME_SIZE) 0;
     rxBuf := 0;
     hal_rx_requests := [] |}.

(** Field updates. *)
Definition set_huart_dmx (v : Z) (s : dmx_state) : dmx_state :=
  mkState v (dmxChannel s) (totalFramesReceived s) (errorFramesReceived s)
          (dmxFlag s) (indexDmx s) (dmxFrame s) (rxBuf s) (hal_rx_requests s).
Definition set_dmxChannel (v : Z) (s : dmx_state) : dmx_state :=
  mkState (huart_dmx s) v (totalFramesReceived s) (errorFramesReceived s)
          (dmxFlag s) (indexDmx s) (dmxFrame s) (rxBuf s) (hal_rx_requests s).
Definition set_totalFramesReceived (v : Z) (s : dmx_state) : dmx_state :=
  mkState (huart_dmx s) (dmxChannel s) v (errorFramesReceived s)
          (dmxFlag s) (indexDmx s) (dmxFrame s) (rxBuf s) (hal_rx_requests s).
Definition set_errorFramesReceived (v : Z) (s : dmx_state) : dmx_state :=
  mkState (huart_dmx s) (dmxChannel s) (totalFramesReceived s) v
          (dmxFlag s) (indexDmx s) (dmxFrame s) (rxBuf s) (hal_rx_requests s).
Definition set_dmxFlag (v : Z) (s : dmx_state) : dmx_state :=
  mkState (huart_dmx s) (dmxChannel s) (totalFramesReceived s)
          (errorFramesReceived s) v (indexDmx s) (dmxFrame s) (rxBuf s)
          (hal_rx_requests s).
Definition set_indexDmx (v : Z) (s : dmx_state) : dmx_state :=
  mkState (huart_dmx s) (dmxChannel s) (totalFramesReceived s)
          (errorFramesReceived s) (dmxFlag s) v (dmxFrame s) (rxBuf s)
          (hal_rx_requests s).
Definition set_dmxFrame (v : list Z) (s : dmx_state) : dmx_state :=
  mkState (huart_dmx s) (dmxChannel s) (totalFramesReceived s)
          (errorFramesReceived s) (dmxFlag s) (indexDmx s) v (rxBuf s)
          (hal_rx_requests s).
Definition set_rxBuf (v : Z) (s : dmx_state) : dmx_state :=
  mkState (huart_dmx s) (dmxChannel s) (totalFramesReceived s)
          (errorFramesReceived s) (dmxFlag s) (indexDmx s) (dmxFrame s) v
          (hal_rx_requests s).

(** [HAL_UART_Receive_IT(huart, rxBuf, 1)]: an external HAL call; the module
    only observes that the request was made. *)
Definition HAL_UART_Receive_IT (huart : Z) (s : dmx_state) : dmx_state :=
  mkState (huart_dmx s) (dmxChannel s) (totalFramesReceived s)
          (errorFramesReceived s) (dmxFlag s) (indexDmx s) (dmxFrame s)
          (rxBuf s) (huart :: hal_rx_requests s).

(** ** Channel address *)

(** [bool DMX_SetChannel(uint8_t channel)].  The parameter has type
    [uint8_t]: the argument of a call is converted to it on entry. *)
Definition DMX_SetChannel (channel : Z) (s : dmx_state) : bool * dmx_state :=
  let channel := uint8 channel in
  if (DMX_CHANNEL_MIN <=? channel) && (channel <=? DMX_CHANNEL_MAX)
  then (true, set_dmxChannel channel s)
  else (false, s).

(** [uint8_t DMX_GetChannel(void)]. *)
Definition DMX_GetChannel (s : dmx_state) : Z := dmxChannel s.

(** ** Statistics *)

(** [void DMX_ResetStats(void)]. *)
Definition DMX_ResetStats (s : dmx_state) : dmx_state :=
  set_errorFramesReceived 0 (set_totalFramesReceived 0 s).

(** ** Initialisation *)

(** [void DMX_Init(UART_HandleTypeDef *huart, uint8_t startChannel)].
    The result of [DMX_SetChannel] is dropped; [memset] zeroes the frame. *)
Definition DMX_Init (huart startChannel : Z) (s : dmx_state) : dmx_state :=
  let s := set_huart_dmx huart s in
  let s := snd (DMX_SetChannel (uint8 startChannel) s) in
  let s := set_indexDmx 0 s in
  let s := set_dmxFlag 0 s in
  let s := set_dmxFrame (replicate (Z.to_nat DMX_FRAME_SIZE) 0) s in
  let s := DMX_ResetStats s in
  HAL_UART_Receive_IT (huart_dmx s) s.

(** ** Ready flag *)

(** [bool DMX_IsNewFrameAvailable(void)]. *)
Definition DMX_IsNewFrameAvailable (s : dmx_state) : bool * dmx_state :=
  if dmxFlag s =? 1 then (true, set_dmxFlag 0 s) else (false, s).

(** ** Receiver callbacks *)

(** [void DMX_ErrorCallback(UART_HandleTypeDef *huart)]. *)
Definition DMX_ErrorCallback (huart : Z) (s : dmx_state) : dmx_state :=
  if huart =? huart_dmx s then
    let s := set_indexDmx 0 s in
    let s := set_dmxFlag 0 s in
    HAL_UART_Receive_IT (huart_dmx s) s
  else s.

(** [void DMX_RxCallback(UART_HandleTypeDef *huart)].  The write
    [dmxFrame[indexDmx] = rxBuf[0]] is guarded by [indexDmx < DMX_FRAME_SIZE];
    on a list shorter than the index, the update below changes nothing. *)
Definition DMX_RxCallback (huart : Z) (s : dmx_state) : dmx_state :=
  if huart =? huart_dmx s then
    let s :=
      if indexDmx s <? DMX_FRAME_SIZE then
        let s := set_dmxFrame
                   (<[Z.to_nat (indexDmx s) := rxBuf s]> (dmxFrame s)) s in
        let s := set_indexDmx (uint16 (indexDmx s + 1)) s in
        if DMX_FRAME_SIZE <=? indexDmx s then set_dmxFlag 1 s else s
      else s in
    HAL_UART_Receive_IT (huart_dmx s) s
  else s.

(** ** Caller-owned [DMX_DataTypeDef] objects *)

(** Member stores [p->field = v] and the member load [p->field]; each is
    defined only where [p] points to an object of the store. *)
Definition store_red (p v : Z) (m : gmap Z DMX_DataTypeDef)
  : option (gmap Z DMX_DataTypeDef) :=
  d ← m !! p; Some (<[p := mkData v (green d) (blue d) (dimmer d) (flash d)]> m).
Definition store_green (p v : Z) (m : gmap Z DMX_DataTypeDef)
  : option (gmap Z DMX_DataTypeDef) :=
  d ← m !! p; Some (<[p := mkData (red d) v (blue d) (dimmer d) (flash d)]> m).
Definition store_blue (p v : Z) (m : gmap Z DMX_DataTypeDef)
  : option (gmap Z DMX_DataTypeDef) :=
  d ← m !! p; Some (<[p := mkData (red d) (green d) v (dimmer d) (flash d)]> m).
Definition store_dimmer (p v : Z) (m : gmap Z DMX_DataTypeDef)
  : option (gmap Z DMX_DataTypeDef) :=
  d ← m !! p; Some (<[p := mkData (red d) (green d) (blue d) v (flash d)]> m).
Definition store_flash (p v : Z) (m : gmap Z DMX_DataTypeDef)
  : option (gmap Z DMX_DataTypeDef) :=
  d ← m !! p; Some (<[p := mkData (red d) (green d) (blue d) (dimmer d) v]> m).

Definition load (field : DMX_DataTypeDef -> Z) (p : Z)
    (m : gmap Z DMX_DataTypeDef) : option Z :=
  field <$> m !! p.

(** [dmxFrame[i]]: defined only inside the array. *)
Definition frame_at (s : dmx_state) (i : Z) : option Z :=
  if 0 <=? i then dmxFrame s !! Z.to_nat i else None.

(** ** Decoder *)

(** [bool DMX_DecodeFrame(DMX_DataTypeDef *data)].  The index
    [dmxChannel + DMX_OFFSET_x] is computed in [int], so it does not wrap. *)
Definition DMX_DecodeFrame (data : Z) (s : dmx_state)
    (m : gmap Z DMX_DataTypeDef)
  : option (bool * dmx_state * gmap Z DMX_DataTypeDef) :=
  if data =? NULL then Some (false, s, m)
  else
    b0 ← frame_at s 0;
    if negb (b0 =? DMX_START_CODE) then
      Some (false,
            set_errorFramesReceived (uint32 (errorFramesReceived s + 1)) s, m)
    else
      r ← frame_at s (dmxChannel s + DMX_OFFSET_RED);
      m ← store_red data r m;
      g ← frame_at s (dmxChannel s + DMX_OFFSET_GREEN);
      m ← store_green data g m;
      b ← frame_at s (dmxChannel s + DMX_OFFSET_BLUE);
      m ← store_blue data b m;
      d ← frame_at s (dmxChannel s + DMX_OFFSET_DIMMER);
      m ← store_dimmer data d m;
      f ← frame_at s (dmxChannel s + DMX_OFFSET_FLASH);
      m ← store_flash data f m;
      Some (true,
            set_totalFramesReceived (uint32 (totalFramesReceived s + 1)) s, m).

(** ** Dimmer *)

(** [void DMX_ApplyDimmer(DMX_DataTypeDef *data, DMX_DataTypeDef *output)].
    The product is formed in [uint32_t], divided by 255 and converted to the
    [uint8_t] member.  The members of [data] are read from the current store,
    after the earlier member stores, so [data == output] is covered. *)
Definition DMX_ApplyDimmer (data output : Z) (m : gmap Z DMX_DataTypeDef)
  : option (gmap Z DMX_DataTypeDef) :=
  if (data =? NULL) || (output =? NULL) then Some m
  else
    r ← load red data m; k ← load dimmer data m;
    m ← store_red output (uint8 (uint32 (uint32 r * uint32 k) / 255)) m;
    g ← load green data m; k ← load dimmer data m;
    m ← store_green output (uint8 (uint32 (uint32 g * uint32 k) / 255)) m;
    b ← load blue data m; k ← load dimmer data m;
    m ← store_blue output (uint8 (uint32 (uint32 b * uint32 k) / 255)) m;
    k ← load dimmer data m;
    m ← store_dimmer output k m;
    f ← load flash data m;
    store_flash output f m.

(** The scaling law of the dimmer on one colour, over the integers. *)
Definition scale (colour k : Z) : Z := colour * k / 255.

(** ** Events of the receiver and of the consumer *)

(** Reception of one byte: the HAL stores the byte in [rxBuf[0]] and then
    calls the receive-complete callback with the handle of the link. *)
Definition byte_received (huart byte : Z) (s : dmx_state) : dmx_state :=
  DMX_RxCallback huart (set_rxBuf (uint8 byte) s).

(** Bytes arriving one after the other on the DMX link. *)
Fixpoint bytes_received (bytes : list Z) (s : dmx_state) : dmx_state :=
  match bytes with
  | [] => s
  | b :: bytes => bytes_received bytes (byte_received (huart_dmx s) b s)
  end.

(** [n] successive polls of the ready flag; the results, oldest first. *)
Fixpoint polls (n : nat) (s : dmx_state) : list bool * dmx_state :=
  match n with
  | O => ([], s)
  | S n =>
      let '(b, s) := DMX_IsNewFrameAvailable s in
      let '(bs, s) := polls n s in
      (b :: bs, s)
  end.

(** One call into the module, from either execution context. *)
Inductive step : dmx_state -> dmx_state -> Prop :=
| step_init huart ch s :
    step s (DMX_Init huart ch s)
| step_set_channel ch s :
    step s (snd (DMX_SetChannel ch s))
| step_poll s :
    step s (snd (DMX_IsNewFrameAvailable s))
| step_decode data m b s' m' s :
    DMX_DecodeFrame data s m = Some (b, s', m') ->
    step s s'
| step_reset_stats s :
    step s (DMX_ResetStats s)
| step_break huart s :
    step s (DMX_ErrorCallback huart s)
| step_byte huart byte s :
    step s (byte_received huart byte s).

(** States reachable from the static initialisers. *)
Inductive reachable : dmx_state -> Prop :=
| reachable_initial : reachable initial_state
| reachable_step s s' : reachable s -> step s s' -> reachable s'.

(** What the module maintains about its own variables. *)
Record state_inv (s : dmx_state) : Prop := mkInv {
  inv_channel : 1 <= dmxChannel s <= 255;
  inv_index : 0 <= indexDmx s <= DMX_FRAME_SIZE;
  inv_flag : dmxFlag s = 0 \/ (dmxFlag s = 1 /\ indexDmx s = DMX_FRAME_SIZE);
  inv_frame_len : length (dmxFrame s) = Z.to_nat DMX_FRAME_SIZE;
  inv_frame_bytes : Forall is_uint8 (dmxFrame s);
  inv_total : is_uint32 (totalFramesReceived s);
  inv_error : is_uint32 (errorFramesReceived s)
}.

(** ** Traces on the DMX link *)

(** The three events on the receiver and its ready flag: a break and a byte
    on the DMX link (both delivered with the handle of that link), and a poll
    by the consumer. *)
Inductive link_event : Type :=
| Break
| Byte (byte : Z)
| Poll.

Definition link_step (e : link_event) (s : dmx_state) : dmx_state :=
  match e with
  | Break => DMX_ErrorCallback (huart_dmx s) s
  | Byte b => byte_received (huart_dmx s) b s
  | Poll => snd (DMX_IsNewFrameAvailable s)
  end.

Fixpoint run (tr : list link_event) (s : dmx_state) : dmx_state :=
  match tr with
  | [] => s
  | e :: tr => run tr (link_step e s)
  end.

Definition is_break (e : link_event) : bool :=
  match e with Break => true | _ => false end.

Definition is_byte (e : link_event) : bool :=
  match e with Byte _ => true | _ => false end.

(** Number of bytes in a trace. *)
Fixpoint count_bytes (tr : list link_event) : Z :=
  match tr with
  | [] => 0
  | e :: tr => (if is_byte e then 1 else 0) + count_bytes tr
  end.

(** A trace without a break. *)
Definition no_break (tr : list link_event) : Prop :=
  Forall (fun e => is_break e = false) tr.

(** ** Concrete states and stores used in the examples *)

(** A caller-owned object at address 16. *)
Definition demo_store : gmap Z DMX_DataTypeDef := {[16 := mkData 9 9 9 9 9]}.

(** After a break and one byte 1: the start code in the frame is 1. *)
Definition bad_start_state : dmx_state := run [Break; Byte 1] initial_state.

(** The same state after 4294967295 decodes of that frame. *)
Definition error_max_state : dmx_state :=
  set_errorFramesReceived 4294967295 bad_start_state.

(** The initial state after 4294967295 decodes of the zero frame. *)
Definition total_max_state : dmx_state :=
  set_totalFramesReceived 4294967295 initial_state.

(** A complete frame whose byte at index [i] is [i mod 256], decoded at
    address 10. *)
Definition marker_state : dmx_state :=
  snd (DMX_SetChannel 10
         (run (Break :: map Byte (map Z.of_nat (seq 0 513))) initial_state)).

(** A full frame that has not been polled yet. *)
Definition full_state : dmx_state :=
  run (Break :: map Byte (replicate 513 7)) initial_state.

(** ** Reading the statistics *)

(** The [uint32_t] objects of the caller are a store of their own; a write
    through a pointer is defined only where it points to one of them. *)
Definition store_u32 (p v : Z) (w : gmap Z Z) : option (gmap Z Z) :=
  _ ← w !! p; Some (<[p := v]> w).

(** [void DMX_GetStats(uint32_t *totalFrames, uint32_t *errorFrames)]: each
    counter is written through its pointer unless the pointer is null, the
    frame counter first. *)
Definition DMX_GetStats (totalFrames errorFrames : Z) (s : dmx_state)
    (w : gmap Z Z) : option (gmap Z Z) :=
  w ← (if totalFrames =? NULL then Some w
       else store_u32 totalFrames (totalFramesReceived s) w);
  if errorFrames =? NULL then Some w
  else store_u32 errorFrames (errorFramesReceived s) w.

(** ** Sequences of calls *)

(** Successive calls of [DMX_DecodeFrame], one per destination pointer; the
    results, oldest first. *)
Fixpoint decode_calls (ds : list Z) (s : dmx_state)
    (m : gmap Z DMX_DataTypeDef)
  : option (list bool * dmx_state * gmap Z DMX_DataTypeDef) :=
  match ds with
  | [] => Some ([], s, m)
  | d :: ds =>
      '(b, s, m) ← DMX_DecodeFrame d s m;
      '(bs, s, m) ← decode_calls ds s m;
      Some (b :: bs, s, m)
  end.

(** Number of non-null pointers in a list. *)
Fixpoint count_non_null (ds : list Z) : Z :=
  match ds with
  | [] => 0
  | d :: ds => (if d =? NULL then 0 else 1) + count_non_null ds
  end.

(** Callbacks of the HAL for any UART of the board.  The HAL stores a
    received byte in the buffer that was registered for the UART: [rxBuf] for
    the DMX link, a buffer outside this module for any other. *)
Inductive uart_event : Type :=
| OnError (huart : Z)
| OnRxCplt (huart byte : Z).

Definition uart_step (e : uart_event) (s : dmx_state) : dmx_state :=
  match e with
  | OnError h => DMX_ErrorCallback h s
  | OnRxCplt h b =>
      if h =? huart_dmx s then byte_received h b s else DMX_RxCallback h s
  end.

Fixpoint run_uart (tr : list uart_event) (s : dmx_state) : dmx_state :=
  match tr with
  | [] => s
  | e :: tr => run_uart tr (uart_step e s)
  end.

Definition uart_of (e : uart_event) : Z :=
  match e with OnError h => h | OnRxCplt h _ => h end.

(** Number of callbacks of the DMX link (breaks and bytes) in a trace. *)
Fixpoint count_callbacks (tr : list link_event) : nat :=
  match tr with
  | [] => O
  | Poll :: tr => count_callbacks tr
  | _ :: tr => S (count_callbacks tr)
  end.

(** ** Proof support *)

(** Reduce the projections of an updated state, and nothing else (the frame
    of 513 bytes is never unfolded). *)
Ltac fields :=
  cbn [huart_dmx dmxChannel totalFramesReceived errorFramesReceived dmxFlag
       indexDmx dmxFrame rxBuf hal_rx_requests
       set_huart_dmx set_dmxChannel set_totalFramesReceived
       set_errorFramesReceived set_dmxFlag set_indexDmx set_dmxFrame set_rxBuf
       HAL_UART_Receive_IT DMX_ResetStats initial_state fst snd].

(** * Properties *)

(** ** Fixed-width arithmetic *)

Lemma uint8_range z : is_uint8 (uint8 z).
Proof. unfold is_uint8, uint8. apply Z.mod_pos_bound. lia. Qed.

Lemma uint8_small z : is_uint8 z -> uint8 z = z.
Proof. unfold is_uint8, uint8. intros H. apply Z.mod_small. lia. Qed.

Lemma uint16_small z : is_uint16 z -> uint16 z = z.
Proof. unfold is_uint16, uint16. intros H. apply Z.mod_small. lia. Qed.

Lemma uint32_range z : is_uint32 (uint32 z).
Proof. unfold is_uint32, uint32. apply Z.mod_pos_bound. lia. Qed.

Lemma uint32_small z : is_uint32 z -> uint32 z = z.
Proof. unfold is_uint32, uint32. intros H. apply Z.mod_small. lia. Qed.

Lemma is_uint8_32 z : is_uint8 z -> is_uint32 z.
Proof. unfold is_uint8, is_uint32. lia. Qed.

(** The product of two bytes fits in 32 bits, and a byte scaled by a byte
    over 255 is a byte again. *)
Lemma product_fits r k : is_uint8 r -> is_uint8 k -> is_uint32 (r * k).
Proof. unfold is_uint8, is_uint32. intros Hr Hk. nia. Qed.

Lemma scale_range r k : is_uint8 r -> is_uint8 k -> is_uint8 (scale r k).
Proof.
  unfold is_uint8, scale. intros Hr Hk. split.
  - apply Z.div_pos; nia.
  - apply Z.div_lt_upper_bound; nia.
Qed.

(** The C expression of [DMX_ApplyDimmer] on two bytes is the exact quotient. *)
Lemma dimmer_expr_exact r k :
  is_uint8 r -> is_uint8 k ->
  uint8 (uint32 (uint32 r * uint32 k) / 255) = scale r k.
Proof.
  intros Hr Hk.
  rewrite (uint32_small r), (uint32_small k) by (apply is_uint8_32; assumption).
  rewrite (uint32_small (r * k)) by (apply product_fits; assumption).
  apply uint8_small, scale_range; assumption.
Qed.

(** ** Channel address *)

(** What [DMX_SetChannel] does on every argument: the argument is reduced
    modulo 256, rejected when the residue is 0 and stored otherwise.  The
    comparison with [DMX_CHANNEL_MAX] never fails on a [uint8_t]. *)
Lemma DMX_SetChannel_char ch s :
  DMX_SetChannel ch s =
    if uint8 ch =? 0 then (false, s) else (true, set_dmxChannel (uint8 ch) s).
Proof.
  unfold DMX_SetChannel, DMX_CHANNEL_MIN, DMX_CHANNEL_MAX.
  pose proof (uint8_range ch) as H. unfold is_uint8 in H.
  destruct (Z.eqb_spec (uint8 ch) 0) as [E|E].
  - rewrite E. reflexivity.
  - replace (1 <=? uint8 ch) with true by (symmetry; apply Z.leb_le; lia).
    replace (uint8 ch <=? 506) with true by (symmetry; apply Z.leb_le; lia).
    reflexivity.
Qed.

Lemma DMX_SetChannel_rejected ch s :
  fst (DMX_SetChannel ch s) = false -> snd (DMX_SetChannel ch s) = s.
Proof.
  rewrite DMX_SetChannel_char. destruct (uint8 ch =? 0); simpl; congruence.
Qed.

(** C1 (channel-address setter, as the code has it).  The setter does not
    accept exactly the addresses 1..506: called with 507 it returns [true] and
    stores 251, called with 506 it returns [true] but stores 250, so
    [DMX_GetChannel] never returns an address above 255.  Called with 0 it
    returns [false] and called with 1 it returns [true] and stores 1; an
    argument is accepted exactly when it is not a multiple of 256, and on
    every rejection the stored address is retained. *)
Theorem C1_set_channel_truncates_address (s : dmx_state) :
  (forall ch, fst (DMX_SetChannel ch s) = true <-> ch mod 256 <> 0) /\
  DMX_SetChannel 507 s = (true, set_dmxChannel 251 s) /\
  DMX_GetChannel (snd (DMX_SetChannel 507 s)) = 251 /\
  DMX_SetChannel 506 s = (true, set_dmxChannel 250 s) /\
  DMX_GetChannel (snd (DMX_SetChannel 506 s)) = 250 /\
  DMX_SetChannel 0 s = (false, s) /\
  DMX_SetChannel 1 s = (true, set_dmxChannel 1 s) /\
  (forall ch, is_uint8 (DMX_GetChannel (snd (DMX_SetChannel ch s))) \/
              DMX_GetChannel (snd (DMX_SetChannel ch s)) = DMX_GetChannel s) /\
  (forall ch, fst (DMX_SetChannel ch s) = false ->
              DMX_GetChannel (snd (DMX_SetChannel ch s)) = DMX_GetChannel s).
Proof.
  split.
  { intros ch. rewrite DMX_SetChannel_char. change (2 ^ 8) with 256.
    unfold uint8. change (2 ^ 8) with 256.
    destruct (Z.eqb_spec (ch mod 256) 0) as [E|E]; simpl;
      split; congruence. }
  repeat split; try reflexivity.
  - intros ch. rewrite DMX_SetChannel_char.
    destruct (uint8 ch =? 0); simpl; [right; reflexivity | left].
    apply uint8_range.
  - intros ch H. rewrite (DMX_SetChannel_rejected _ _ H). reflexivity.
Qed.

(** ** Receiver callbacks *)

Lemma DMX_ErrorCallback_ours s :
  DMX_ErrorCallback (huart_dmx s) s =
    HAL_UART_Receive_IT (huart_dmx s) (set_dmxFlag 0 (set_indexDmx 0 s)).
Proof. unfold DMX_ErrorCallback. rewrite Z.eqb_refl. reflexivity. Qed.

(** C7 (break).  [DMX_ErrorCallback], called with the handle of the DMX link
    in any state whatever, sets the fill index to 0 and clears the ready
    flag; it checks nothing about the previous index or flag, leaves the
    frame, the address and the counters as they were, and re-arms the
    reception. *)
Theorem C7_break_resets_unconditionally (s : dmx_state) :
  let s' := DMX_ErrorCallback (huart_dmx s) s in
  indexDmx s' = 0 /\ dmxFlag s' = 0 /\
  dmxFrame s' = dmxFrame s /\ dmxChannel s' = dmxChannel s /\
  totalFramesReceived s' = totalFramesReceived s /\
  errorFramesReceived s' = errorFramesReceived s /\
  hal_rx_requests s' = huart_dmx s :: hal_rx_requests s.
Proof.
  rewrite DMX_ErrorCallback_ours. simpl. repeat split.
Qed.

(** C8 (overrun guard).  When the fill index is already 513, the reception of
    a byte changes neither the frame, nor the fill index, nor the ready flag,
    nor any of the two counters: the byte is dropped. *)
Theorem C8_full_buffer_drops_byte (huart byte : Z) (s : dmx_state) :
  indexDmx s = DMX_FRAME_SIZE ->
  let s' := byte_received huart byte s in
  dmxFrame s' = dmxFrame s /\ indexDmx s' = indexDmx s /\
  dmxFlag s' = dmxFlag s /\
  totalFramesReceived s' = totalFramesReceived s /\
  errorFramesReceived s' = errorFramesReceived s.
Proof.
  intros Hfull. unfold byte_received, DMX_RxCallback. simpl.
  destruct (huart =? huart_dmx s); simpl.
  - rewrite Hfull. simpl. repeat split; assumption.
  - repeat split.
Qed.

(** ** Decoder *)

(** C10 (null destination).  [DMX_DecodeFrame(NULL)] returns [false] and
    leaves the whole module state (both counters, the frame, the fill index,
    the ready flag) and the caller's objects as they were: this failure does
    not count as an error frame. *)
Theorem C10_decode_null_changes_nothing
    (s : dmx_state) (m : gmap Z DMX_DataTypeDef) :
  DMX_DecodeFrame NULL s m = Some (false, s, m).
Proof. reflexivity. Qed.

(** ** Dimmer *)

(** C4 (dimmer).  For a source object of five bytes, [DMX_ApplyDimmer] leaves
    in the destination red, green and blue scaled to
    [floor (colour * dimmer / 255)] and the dimmer and flash of the source;
    the three products are at most 65025 and are not changed by the
    [uint32_t] arithmetic, and the five results are bytes.  Source and
    destination may be the same object; no other object is changed. *)
Theorem C4_apply_dimmer_scales
    (data output : Z) (m : gmap Z DMX_DataTypeDef) (d : DMX_DataTypeDef) :
  data <> NULL -> output <> NULL ->
  m !! data = Some d -> is_Some (m !! output) -> data_wf d ->
  let out := mkData (scale (red d) (dimmer d)) (scale (green d) (dimmer d))
                    (scale (blue d) (dimmer d)) (dimmer d) (flash d) in
  (exists m', DMX_ApplyDimmer data output m = Some m' /\
              m' !! output = Some out /\
              forall p, p <> output -> m' !! p = m !! p) /\
  data_wf out /\
  (red d * dimmer d <= 65025 /\ uint32 (red d * dimmer d) = red d * dimmer d) /\
  (green d * dimmer d <= 65025 /\
   uint32 (green d * dimmer d) = green d * dimmer d) /\
  (blue d * dimmer d <= 65025 /\
   uint32 (blue d * dimmer d) = blue d * dimmer d).
Proof.
  intros Hd Ho Hmd [o Hmo] (Hr & Hg & Hb & Hk & Hf). cbv zeta.
  split; [| split; [| repeat split]].
  - unfold DMX_ApplyDimmer.
    destruct (Z.eqb_spec data NULL) as [|_]; [contradiction|].
    destruct (Z.eqb_spec output NULL) as [|_]; [contradiction|].
    simpl orb. cbv iota.
    unfold load, store_red, store_green, store_blue, store_dimmer, store_flash.
    destruct (decide (data = output)) as [->|Hne].
    + assert (o = d) by congruence. subst o.
      rewrite Hmd. simpl.
      repeat (rewrite ?lookup_insert_eq, ?insert_insert_eq; simpl).
      rewrite !dimmer_expr_exact by assumption.
      eexists. split; [reflexivity|]. split.
      * rewrite lookup_insert_eq. reflexivity.
      * intros p Hp. rewrite lookup_insert_ne by congruence. reflexivity.
    + rewrite Hmd, Hmo. simpl.
      repeat (rewrite ?lookup_insert_eq, ?insert_insert_eq,
                ?(lookup_insert_ne _ output data) by congruence;
              rewrite ?Hmd; simpl).
      rewrite !dimmer_expr_exact by assumption.
      eexists. split; [reflexivity|]. split.
      * rewrite lookup_insert_eq. reflexivity.
      * intros p Hp. rewrite lookup_insert_ne by congruence. reflexivity.
  - unfold data_wf. simpl. auto using scale_range.
  - unfold is_uint8 in *. nia.
  - apply uint32_small, product_fits; assumption.
  - unfold is_uint8 in *. nia.
  - apply uint32_small, product_fits; assumption.
  - unfold is_uint8 in *. nia.
  - apply uint32_small, product_fits; assumption.
Qed.

(** The example of the header: (200, 150, 100) at dimmer 128 gives
    (100, 75, 50), with two distinct objects. *)
Lemma C4_apply_dimmer_scales_witness :
  exists m',
    DMX_ApplyDimmer 16 32
      (<[16 := mkData 200 150 100 128 7]> {[32 := mkData 0 0 0 0 0]}) = Some m' /\
    m' !! 32 = Some (mkData 100 75 50 128 7).
Proof.
  destruct (C4_apply_dimmer_scales 16 32
              (<[16 := mkData 200 150 100 128 7]> {[32 := mkData 0 0 0 0 0]})
              (mkData 200 150 100 128 7)) as [[m' [H1 [H2 _]]] _].
  - discriminate.
  - discriminate.
  - reflexivity.
  - exists (mkData 0 0 0 0 0). reflexivity.
  - unfold data_wf, is_uint8. simpl. lia.
  - exists m'. split; [exact H1 | exact H2].
Defined.

(** ** Receiver: one byte, many bytes *)

Lemma byte_received_huart huart b s :
  huart_dmx (byte_received huart b s) = huart_dmx s.
Proof.
  unfold byte_received, DMX_RxCallback. simpl.
  destruct (huart =? huart_dmx s); simpl; [| reflexivity].
  destruct (indexDmx s <? DMX_FRAME_SIZE); simpl; [| reflexivity].
  destruct (DMX_FRAME_SIZE <=? uint16 (indexDmx s + 1)); reflexivity.
Qed.

(** A byte on the DMX link below the end of the frame: stored at the fill
    index, which advances by one; the flag is raised when 513 is reached. *)
Lemma byte_received_room b s :
  0 <= indexDmx s < DMX_FRAME_SIZE ->
  let s' := byte_received (huart_dmx s) b s in
  indexDmx s' = indexDmx s + 1 /\
  dmxFlag s' = (if indexDmx s =? 512 then 1 else dmxFlag s) /\
  dmxFrame s' = <[Z.to_nat (indexDmx s) := uint8 b]> (dmxFrame s).
Proof.
  unfold DMX_FRAME_SIZE. intros Hi.
  unfold byte_received, DMX_RxCallback, DMX_FRAME_SIZE. simpl.
  rewrite Z.eqb_refl.
  replace (indexDmx s <? 513) with true by (symmetry; apply Z.ltb_lt; lia).
  simpl. rewrite (uint16_small (indexDmx s + 1)) by (unfold is_uint16; lia).
  destruct (Z.eqb_spec (indexDmx s) 512) as [E|E].
  - rewrite E. simpl. repeat split.
  - replace (513 <=? indexDmx s + 1) with false
      by (symmetry; apply Z.leb_gt; lia).
    simpl. repeat split.
Qed.

(** A byte on the DMX link when the frame is full: nothing but the receive
    buffer and the re-arming changes. *)
Lemma byte_received_full b s :
  DMX_FRAME_SIZE <= indexDmx s ->
  let s' := byte_received (huart_dmx s) b s in
  indexDmx s' = indexDmx s /\ dmxFlag s' = dmxFlag s /\
  dmxFrame s' = dmxFrame s.
Proof.
  unfold DMX_FRAME_SIZE. intros Hi.
  unfold byte_received, DMX_RxCallback, DMX_FRAME_SIZE. simpl.
  rewrite Z.eqb_refl.
  replace (indexDmx s <? 513) with false by (symmetry; apply Z.ltb_ge; lia).
  simpl. repeat split.
Qed.

Lemma poll_fields s :
  let s' := snd (DMX_IsNewFrameAvailable s) in
  indexDmx s' = indexDmx s /\ huart_dmx s' = huart_dmx s /\
  dmxFrame s' = dmxFrame s /\ (dmxFlag s = 0 -> dmxFlag s' = 0).
Proof.
  unfold DMX_IsNewFrameAvailable.
  destruct (dmxFlag s =? 1); simpl; repeat split; auto.
Qed.

(** Fewer bytes than the room left: the index counts them, the flag keeps its
    value. *)
Lemma bytes_received_partial bytes : forall s,
  0 <= indexDmx s ->
  indexDmx s + Z.of_nat (length bytes) < DMX_FRAME_SIZE ->
  indexDmx (bytes_received bytes s) = indexDmx s + Z.of_nat (length bytes) /\
  dmxFlag (bytes_received bytes s) = dmxFlag s.
Proof.
  unfold DMX_FRAME_SIZE.
  induction bytes as [|b bytes IH]; intros s H0 Hlen; simpl in *.
  - split; [lia | reflexivity].
  - destruct (byte_received_room b s) as (Hi & Hf & _);
      [unfold DMX_FRAME_SIZE; lia |].
    destruct (IH (byte_received (huart_dmx s) b s)) as (Hi' & Hf'); [lia.. |].
    rewrite Hi', Hf', Hi, Hf.
    destruct (Z.eqb_spec (indexDmx s) 512); [lia |]. split; [lia | reflexivity].
Qed.

(** Exactly the bytes that fill the frame: the index is 513 and the flag is
    raised. *)
Lemma bytes_received_fills bytes : forall s,
  0 <= indexDmx s -> bytes <> [] ->
  indexDmx s + Z.of_nat (length bytes) = DMX_FRAME_SIZE ->
  indexDmx (bytes_received bytes s) = DMX_FRAME_SIZE /\
  dmxFlag (bytes_received bytes s) = 1.
Proof.
  unfold DMX_FRAME_SIZE.
  induction bytes as [|b bytes IH]; intros s H0 Hne Hlen; [congruence |].
  simpl in *.
  destruct (byte_received_room b s) as (Hi & Hf & _);
    [unfold DMX_FRAME_SIZE; lia |].
  destruct bytes as [|b' bytes].
  - simpl in *. rewrite Hi, Hf.
    destruct (Z.eqb_spec (indexDmx s) 512); [split; [lia | reflexivity] | lia].
  - apply IH; [lia | discriminate | simpl in *; lia].
Qed.

Lemma count_bytes_nonneg tr : 0 <= count_bytes tr.
Proof. induction tr as [|e tr IH]; simpl; [lia | destruct (is_byte e); lia]. Qed.

(** Bytes and polls after a lowered flag, with fewer bytes than the room
    left: the flag stays lowered and the index counts the bytes. *)
Lemma run_partial tr : forall s,
  no_break tr -> dmxFlag s = 0 -> 0 <= indexDmx s ->
  indexDmx s + count_bytes tr < DMX_FRAME_SIZE ->
  dmxFlag (run tr s) = 0 /\ indexDmx (run tr s) = indexDmx s + count_bytes tr.
Proof.
  unfold DMX_FRAME_SIZE, no_break.
  induction tr as [|e tr IH]; intros s Hnb Hflag H0 Hroom; simpl in *.
  - split; [assumption | lia].
  - pose proof (count_bytes_nonneg tr) as Hc.
    inversion Hnb as [|? ? He Htr]; subst.
    destruct e as [|b|]; simpl in *; [discriminate | |].
    + destruct (byte_received_room b s) as (Hi & Hf & _);
        [unfold DMX_FRAME_SIZE; lia |].
      destruct (IH (byte_received (huart_dmx s) b s)) as (Hf' & Hi'); auto.
      * rewrite Hf. destruct (Z.eqb_spec (indexDmx s) 512); [lia | assumption].
      * lia.
      * lia.
      * split; [assumption | lia].
    + destruct (poll_fields s) as (Hi & _ & _ & Hf).
      destruct (IH (snd (DMX_IsNewFrameAvailable s))) as (Hf' & Hi'); auto.
      * lia.
      * lia.
      * split; [assumption | lia].
Qed.

(** ** Ready flag *)

Lemma polls_idle n : forall s,
  dmxFlag s = 0 -> polls n s = (replicate n false, s).
Proof.
  induction n as [|n IH]; intros s Hf; simpl; [reflexivity |].
  unfold DMX_IsNewFrameAvailable. rewrite Hf. simpl.
  rewrite (IH s Hf). reflexivity.
Qed.

(** C5 (frame-ready handoff).  From any state, a break followed by 513 bytes
    on the DMX link leaves a state in which the first poll returns [true] and
    each of the polls that follow it returns [false].  In any state a poll
    returns [true] exactly when the flag is 1; a poll that returns [true]
    clears the flag, and one that returns [false] changes nothing. *)
Theorem C5_frame_ready_exactly_once
    (s : dmx_state) (bytes : list Z) (n : nat) :
  (length bytes = Z.to_nat DMX_FRAME_SIZE ->
   let s1 := bytes_received bytes (DMX_ErrorCallback (huart_dmx s) s) in
   polls (S n) s1 = (true :: replicate n false, set_dmxFlag 0 s1)) /\
  (fst (DMX_IsNewFrameAvailable s) = true <-> dmxFlag s = 1) /\
  (fst (DMX_IsNewFrameAvailable s) = true ->
   dmxFlag (snd (DMX_IsNewFrameAvailable s)) = 0) /\
  (fst (DMX_IsNewFrameAvailable s) = false ->
   snd (DMX_IsNewFrameAvailable s) = s).
Proof.
  split; [| unfold DMX_IsNewFrameAvailable;
            destruct (Z.eqb_spec (dmxFlag s) 1); simpl;
            repeat split; congruence].
  intros Hlen. cbv zeta.
  rewrite DMX_ErrorCallback_ours.
  destruct (bytes_received_fills bytes
              (HAL_UART_Receive_IT (huart_dmx s)
                 (set_dmxFlag 0 (set_indexDmx 0 s)))) as (_ & Hflag).
  - simpl. lia.
  - intros ->. discriminate.
  - simpl. rewrite Hlen. reflexivity.
  - cbn [polls]. unfold DMX_IsNewFrameAvailable at 1. rewrite Hflag. simpl.
    rewrite polls_idle by reflexivity. reflexivity.
Qed.

(** ** The invariant of the module *)

Lemma zero_frame_bytes n : Forall is_uint8 (replicate n 0).
Proof. apply Forall_replicate. unfold is_uint8. lia. Qed.

Lemma initial_state_inv : state_inv initial_state.
Proof.
  split; fields; unfold DMX_FRAME_SIZE, is_uint32; try lia.
  - apply length_replicate.
  - apply zero_frame_bytes.
Qed.

(** The only effect of [DMX_DecodeFrame] on the module state is one of the
    two counters. *)
Lemma DMX_DecodeFrame_state data s m b s' m' :
  DMX_DecodeFrame data s m = Some (b, s', m') ->
  (b = false /\ s' = s /\ m' = m /\ data = NULL) \/
  (b = false /\ m' = m /\
   s' = set_errorFramesReceived (uint32 (errorFramesReceived s + 1)) s) \/
  (b = true /\
   s' = set_totalFramesReceived (uint32 (totalFramesReceived s + 1)) s).
Proof.
  unfold DMX_DecodeFrame. intros H.
  destruct (Z.eqb_spec data NULL) as [E|E].
  - left. inversion H. auto.
  - right.
    destruct (frame_at s 0) as [b0|]; simpl in H; [| discriminate].
    destruct (negb (b0 =? DMX_START_CODE)).
    + left. inversion H. auto.
    + right.
      repeat match type of H with
             | (match ?x with _ => _ end) = _ =>
                 destruct x; simpl in H; [| discriminate]
             | (?x ≫= _) = _ =>
                 destruct x; simpl in H; [| discriminate]
             end.
      inversion H. auto.
Qed.

Lemma DMX_SetChannel_inv ch s :
  state_inv s -> state_inv (snd (DMX_SetChannel ch s)).
Proof.
  intros [Hc Hi Hf Hl Hb Ht He]. rewrite DMX_SetChannel_char.
  destruct (Z.eqb_spec (uint8 ch) 0); simpl; split; simpl; auto.
  pose proof (uint8_range ch) as H. unfold is_uint8 in H. lia.
Qed.

Lemma byte_received_inv huart b s :
  state_inv s -> state_inv (byte_received huart b s).
Proof.
  intros [Hc Hi Hf Hl Hb Ht He].
  unfold byte_received, DMX_RxCallback, DMX_FRAME_SIZE in *. simpl.
  destruct (huart =? huart_dmx s); simpl; [| split; simpl; auto].
  destruct (Z.ltb_spec (indexDmx s) 513) as [Hlt|Hge]; simpl;
    [| split; simpl; auto].
  rewrite (uint16_small (indexDmx s + 1)) by (unfold is_uint16; lia).
  assert (Hfr : Forall is_uint8 (<[Z.to_nat (indexDmx s) := uint8 b]> (dmxFrame s)))
    by (apply Forall_insert; [assumption | apply uint8_range]).
  destruct (Z.leb_spec 513 (indexDmx s + 1)) as [Hfull|Hroom]; simpl;
    split; simpl; unfold DMX_FRAME_SIZE; auto; try lia;
    rewrite length_insert; assumption.
Qed.

Lemma step_inv s s' : state_inv s -> step s s' -> state_inv s'.
Proof.
  intros Hinv Hstep. destruct Hstep.
  - (* DMX_Init *)
    unfold DMX_Init.
    pose proof (DMX_SetChannel_inv (uint8 ch) (set_huart_dmx huart s)) as H.
    destruct H as [Hc _ _ _ _ _ _].
    { destruct Hinv; split; simpl; auto. }
    split; fields; unfold DMX_FRAME_SIZE, is_uint32; try lia;
      auto using length_replicate, zero_frame_bytes.
  - apply DMX_SetChannel_inv; assumption.
  - (* poll *)
    destruct Hinv as [Hc Hi Hf Hl Hb Ht He]. unfold DMX_IsNewFrameAvailable.
    destruct (dmxFlag s =? 1); simpl; split; simpl; auto.
  - (* decode *)
    destruct Hinv as [Hc Hi Hf Hl Hb Ht He].
    match goal with H : DMX_DecodeFrame _ _ _ = _ |- _ =>
      destruct (DMX_DecodeFrame_state _ _ _ _ _ _ H)
        as [(_ & -> & _) | [(_ & _ & ->) | (_ & ->)]]
    end; split; simpl; auto using uint32_range.
  - destruct Hinv; split; simpl; unfold is_uint32; auto; lia.
  - (* break *)
    destruct Hinv as [Hc Hi Hf Hl Hb Ht He]. unfold DMX_ErrorCallback.
    destruct (huart =? huart_dmx s); simpl; split; simpl; auto.
    unfold DMX_FRAME_SIZE. lia.
  - apply byte_received_inv; assumption.
Qed.

Lemma reachable_inv s : reachable s -> state_inv s.
Proof.
  induction 1 as [| s s' _ IH Hstep];
    [apply initial_state_inv | exact (step_inv _ _ IH Hstep)].
Qed.

(** Inside the frame, [dmxFrame[i]] is defined. *)
Lemma frame_at_defined s i :
  length (dmxFrame s) = Z.to_nat DMX_FRAME_SIZE ->
  0 <= i < DMX_FRAME_SIZE -> is_Some (frame_at s i).
Proof.
  unfold frame_at, DMX_FRAME_SIZE. intros Hl Hi.
  replace (0 <=? i) with true by (symmetry; apply Z.leb_le; lia).
  apply lookup_lt_is_Some. rewrite Hl. lia.
Qed.

(** ** Decoder: the two paths after the null check *)

(** A start code other than 0: the error counter is incremented as a
    [uint32_t], and nothing else changes; [data] is not dereferenced. *)
Lemma DMX_DecodeFrame_bad_start data s m b0 :
  data <> NULL -> frame_at s 0 = Some b0 -> b0 <> DMX_START_CODE ->
  DMX_DecodeFrame data s m =
    Some (false,
          set_errorFramesReceived (uint32 (errorFramesReceived s + 1)) s, m).
Proof.
  intros Hd H0 Hb. unfold DMX_DecodeFrame.
  destruct (Z.eqb_spec data NULL); [contradiction |].
  rewrite H0. simpl.
  destruct (Z.eqb_spec b0 DMX_START_CODE); [contradiction | reflexivity].
Qed.

(** Start code 0: the five members of [*data] receive the five bytes at
    [dmxChannel + 0 .. dmxChannel + 4], and the frame counter is incremented
    as a [uint32_t]. *)
Lemma DMX_DecodeFrame_good data s m d0 r g b k f :
  data <> NULL -> m !! data = Some d0 ->
  frame_at s 0 = Some DMX_START_CODE ->
  frame_at s (dmxChannel s + DMX_OFFSET_RED) = Some r ->
  frame_at s (dmxChannel s + DMX_OFFSET_GREEN) = Some g ->
  frame_at s (dmxChannel s + DMX_OFFSET_BLUE) = Some b ->
  frame_at s (dmxChannel s + DMX_OFFSET_DIMMER) = Some k ->
  frame_at s (dmxChannel s + DMX_OFFSET_FLASH) = Some f ->
  DMX_DecodeFrame data s m =
    Some (true,
          set_totalFramesReceived (uint32 (totalFramesReceived s + 1)) s,
          <[data := mkData r g b k f]> m).
Proof.
  intros Hd Hm H0 Hr Hg Hb Hk Hf. unfold DMX_DecodeFrame.
  destruct (Z.eqb_spec data NULL); [contradiction |].
  rewrite H0. simpl. rewrite Hr, Hg, Hb, Hk, Hf.
  unfold store_red, store_green, store_blue, store_dimmer, store_flash.
  rewrite Hm. simpl.
  repeat (rewrite ?lookup_insert_eq, ?insert_insert_eq; simpl).
  reflexivity.
Qed.

(** With a frame of 513 bytes and an address of at most 508, a call with a
    null pointer or a pointer to an object is defined. *)
Lemma DMX_DecodeFrame_defined data s m :
  length (dmxFrame s) = Z.to_nat DMX_FRAME_SIZE ->
  0 <= dmxChannel s <= DMX_FRAME_SIZE - DMX_CHANNELS_USED ->
  data = NULL \/ is_Some (m !! data) ->
  is_Some (DMX_DecodeFrame data s m).
Proof.
  unfold DMX_FRAME_SIZE, DMX_CHANNELS_USED. intros Hl Hc Hdata.
  destruct (Z.eq_dec data NULL) as [->|Hnn]; [eexists; reflexivity |].
  destruct Hdata as [|[d0 Hm]]; [contradiction |].
  destruct (frame_at_defined s 0 Hl) as [b0 H0]; [unfold DMX_FRAME_SIZE; lia |].
  destruct (Z.eq_dec b0 DMX_START_CODE) as [->|Hb0].
  - destruct (frame_at_defined s (dmxChannel s + DMX_OFFSET_RED) Hl)
      as [r Hr]; [unfold DMX_FRAME_SIZE, DMX_OFFSET_RED; lia |].
    destruct (frame_at_defined s (dmxChannel s + DMX_OFFSET_GREEN) Hl)
      as [g Hg]; [unfold DMX_FRAME_SIZE, DMX_OFFSET_GREEN; lia |].
    destruct (frame_at_defined s (dmxChannel s + DMX_OFFSET_BLUE) Hl)
      as [b Hb]; [unfold DMX_FRAME_SIZE, DMX_OFFSET_BLUE; lia |].
    destruct (frame_at_defined s (dmxChannel s + DMX_OFFSET_DIMMER) Hl)
      as [k Hk]; [unfold DMX_FRAME_SIZE, DMX_OFFSET_DIMMER; lia |].
    destruct (frame_at_defined s (dmxChannel s + DMX_OFFSET_FLASH) Hl)
      as [f Hf]; [unfold DMX_FRAME_SIZE, DMX_OFFSET_FLASH; lia |].
    rewrite (DMX_DecodeFrame_good data s m d0 r g b k f) by assumption.
    eexists; reflexivity.
  - rewrite (DMX_DecodeFrame_bad_start data s m b0) by assumption.
    eexists; reflexivity.
Qed.

(** C9 (reads stay inside the frame).  In every reachable state the stored
    address [a] satisfies [1 <= a] and [a + 4 <= 511]; the five reads of
    [DMX_DecodeFrame] at [a .. a + 4] are inside the 513-byte frame, and a
    call of [DMX_DecodeFrame] with a null pointer or a pointer to an object
    never takes the out-of-bounds branch. *)
Theorem C9_decode_reads_in_bounds (s : dmx_state) :
  reachable s ->
  (1 <= dmxChannel s /\ dmxChannel s + 4 <= 511) /\
  length (dmxFrame s) = Z.to_nat DMX_FRAME_SIZE /\
  (forall k, 0 <= k <= 4 -> is_Some (frame_at s (dmxChannel s + k))) /\
  (forall data (m : gmap Z DMX_DataTypeDef),
     data = NULL \/ is_Some (m !! data) ->
     is_Some (DMX_DecodeFrame data s m)).
Proof.
  intros Hr. destruct (reachable_inv s Hr) as [Hc _ _ Hl _ _ _].
  split; [lia |]. split; [assumption |]. split.
  - intros k Hk. apply frame_at_defined; [assumption |].
    unfold DMX_FRAME_SIZE. lia.
  - intros data m Hd. apply DMX_DecodeFrame_defined; [assumption | | assumption].
    unfold DMX_FRAME_SIZE, DMX_CHANNELS_USED. lia.
Qed.

(** ** Reachability *)

Lemma reachable_run tr : forall s, reachable s -> reachable (run tr s).
Proof.
  induction tr as [|e tr IH]; intros s Hs; simpl; [assumption |].
  apply IH. apply (reachable_step s); [assumption |].
  destruct e; simpl; constructor.
Qed.

Lemma set_errorFramesReceived_id s :
  set_errorFramesReceived (errorFramesReceived s) s = s.
Proof. destruct s; reflexivity. Qed.

Lemma set_totalFramesReceived_id s :
  set_totalFramesReceived (totalFramesReceived s) s = s.
Proof. destruct s; reflexivity. Qed.

Lemma uint32_succ z n : uint32 (uint32 (z + n) + 1) = uint32 (z + Z.succ n).
Proof.
  unfold uint32. rewrite Zplus_mod_idemp_l. f_equal. lia.
Qed.

(** [n] decodes of a frame with a bad start code add [n] to the error
    counter, modulo 2^32. *)
Lemma reachable_failed_decodes s b0 :
  reachable s -> frame_at s 0 = Some b0 -> b0 <> DMX_START_CODE ->
  forall n, 0 <= n ->
  reachable (set_errorFramesReceived (uint32 (errorFramesReceived s + n)) s).
Proof.
  intros Hs H0 Hb. apply natlike_ind.
  - rewrite Z.add_0_r, uint32_small, set_errorFramesReceived_id; [assumption |].
    apply (inv_error s (reachable_inv s Hs)).
  - intros n Hn IH. eapply reachable_step; [exact IH |].
    eapply (step_decode 16 demo_store).
    rewrite (DMX_DecodeFrame_bad_start 16 _ demo_store b0);
      [| discriminate | exact H0 | exact Hb].
    fields. rewrite uint32_succ. reflexivity.
Qed.

(** Start code 0, a frame of 513 bytes and an address of at most 508: the
    five bytes exist and the decode succeeds with them. *)
Lemma DMX_DecodeFrame_good_ex data s m d0 :
  data <> NULL -> m !! data = Some d0 ->
  length (dmxFrame s) = Z.to_nat DMX_FRAME_SIZE ->
  0 <= dmxChannel s <= DMX_FRAME_SIZE - DMX_CHANNELS_USED ->
  frame_at s 0 = Some DMX_START_CODE ->
  exists r g b k f,
    frame_at s (dmxChannel s + 0) = Some r /\
    frame_at s (dmxChannel s + 1) = Some g /\
    frame_at s (dmxChannel s + 2) = Some b /\
    frame_at s (dmxChannel s + 3) = Some k /\
    frame_at s (dmxChannel s + 4) = Some f /\
    DMX_DecodeFrame data s m =
      Some (true,
            set_totalFramesReceived (uint32 (totalFramesReceived s + 1)) s,
            <[data := mkData r g b k f]> m).
Proof.
  unfold DMX_FRAME_SIZE, DMX_CHANNELS_USED. intros Hd Hm Hl Hc H0.
  destruct (frame_at_defined s (dmxChannel s + 0) Hl)
    as [r Hr]; [unfold DMX_FRAME_SIZE; lia |].
  destruct (frame_at_defined s (dmxChannel s + 1) Hl)
    as [g Hg]; [unfold DMX_FRAME_SIZE; lia |].
  destruct (frame_at_defined s (dmxChannel s + 2) Hl)
    as [b Hb]; [unfold DMX_FRAME_SIZE; lia |].
  destruct (frame_at_defined s (dmxChannel s + 3) Hl)
    as [k Hk]; [unfold DMX_FRAME_SIZE; lia |].
  destruct (frame_at_defined s (dmxChannel s + 4) Hl)
    as [f Hf]; [unfold DMX_FRAME_SIZE; lia |].
  exists r, g, b, k, f. repeat (split; [assumption |]).
  apply (DMX_DecodeFrame_good data s m d0); assumption.
Qed.

(** [n] decodes of a frame with start code 0 add [n] to the frame counter,
    modulo 2^32. *)
Lemma reachable_good_decodes s :
  reachable s -> frame_at s 0 = Some DMX_START_CODE ->
  forall n, 0 <= n ->
  reachable (set_totalFramesReceived (uint32 (totalFramesReceived s + n)) s).
Proof.
  intros Hs H0. apply natlike_ind.
  - rewrite Z.add_0_r, uint32_small, set_totalFramesReceived_id; [assumption |].
    apply (inv_total s (reachable_inv s Hs)).
  - intros n Hn IH.
    pose proof (reachable_inv _ IH) as [Hc _ _ Hl _ _ _].
    destruct (DMX_DecodeFrame_good_ex 16
                (set_totalFramesReceived (uint32 (totalFramesReceived s + n)) s)
                demo_store (mkData 9 9 9 9 9))
      as (r & g & b & k & f & _ & _ & _ & _ & _ & Hdec);
      [discriminate | reflexivity | exact Hl
      | unfold DMX_FRAME_SIZE, DMX_CHANNELS_USED; lia | exact H0 |].
    pose proof (reachable_step _ _ IH (step_decode _ _ _ _ _ _ Hdec)) as Hs'.
    revert Hs'. fields. rewrite uint32_succ. exact (fun H => H).
Qed.

(** ** Witnesses for the receiver and the ready flag *)

Lemma C8_full_buffer_drops_byte_witness :
  indexDmx full_state = DMX_FRAME_SIZE /\
  dmxFrame (byte_received (huart_dmx full_state) 42 full_state)
    = dmxFrame full_state /\
  dmxFlag (byte_received (huart_dmx full_state) 42 full_state) = 1.
Proof.
  assert (Hfull : indexDmx full_state = DMX_FRAME_SIZE)
    by (vm_compute; reflexivity).
  destruct (C8_full_buffer_drops_byte (huart_dmx full_state) 42 full_state Hfull)
    as (Hframe & _ & Hflag & _).
  split; [exact Hfull |]. split; [exact Hframe |].
  rewrite Hflag. vm_compute. reflexivity.
Defined.

Lemma C5_frame_ready_exactly_once_witness :
  fst (polls 3 (bytes_received (replicate 513 7)
                  (DMX_ErrorCallback (huart_dmx initial_state) initial_state)))
    = [true; false; false].
Proof.
  pose proof (proj1 (C5_frame_ready_exactly_once
                       initial_state (replicate 513 7) 2)) as H.
  cbv zeta in H. rewrite H; [reflexivity |].
  vm_compute. reflexivity.
Defined.

(** ** The ready flag and the fill index *)

(** C6 (flag only on a full frame).  In every state reached from the static
    initialisers by calls into the module (breaks, bytes and polls among
    them), the flag is 0 or 1 and it is 1 only when the fill index is 513.
    From any state, a break followed by bytes and polls with fewer than 513
    bytes and no further break leaves the flag at 0. *)
Theorem C6_ready_flag_only_when_full
    (s : dmx_state) (tr : list link_event) :
  (reachable s ->
   (dmxFlag s = 0 \/ dmxFlag s = 1) /\
   (dmxFlag s <> 0 -> indexDmx s = DMX_FRAME_SIZE)) /\
  (no_break tr -> count_bytes tr < DMX_FRAME_SIZE ->
   dmxFlag (run (Break :: tr) s) = 0 /\
   indexDmx (run (Break :: tr) s) = count_bytes tr).
Proof.
  split.
  - intros Hr. destruct (reachable_inv s Hr) as [_ _ Hf _ _ _ _].
    destruct Hf as [Hf | [Hf Hi]]; (split; [lia |]); intros H;
      [contradiction | assumption].
  - intros Hnb Hlt. cbn [run link_step]. rewrite DMX_ErrorCallback_ours.
    destruct (run_partial tr (HAL_UART_Receive_IT (huart_dmx s)
                                (set_dmxFlag 0 (set_indexDmx 0 s))))
      as (Hf & Hi); fields; try assumption; try lia.
    split; [assumption |]. revert Hi. fields. lia.
Qed.

Lemma C6_ready_flag_only_when_full_witness :
  indexDmx full_state = DMX_FRAME_SIZE /\
  dmxFlag (run [Break; Byte 3; Poll; Byte 4] full_state) = 0.
Proof.
  destruct (C6_ready_flag_only_when_full full_state [Byte 3; Poll; Byte 4])
    as (Hreach & Hpartial).
  split.
  - apply Hreach.
    + unfold full_state. apply reachable_run, reachable_initial.
    + vm_compute. discriminate.
  - apply Hpartial.
    + repeat constructor.
    + vm_compute. reflexivity.
Defined.

Lemma C9_decode_reads_in_bounds_witness :
  1 <= dmxChannel marker_state /\ dmxChannel marker_state + 4 <= 511.
Proof.
  apply (C9_decode_reads_in_bounds marker_state).
  unfold marker_state.
  apply (reachable_step
           (run (Break :: map Byte (map Z.of_nat (seq 0 513))) initial_state)).
  - apply reachable_run, reachable_initial.
  - apply step_set_channel.
Defined.

(** ** Decoder: the counters are 32-bit *)

Lemma bad_start_state_reachable : reachable bad_start_state.
Proof. unfold bad_start_state. apply reachable_run, reachable_initial. Qed.

Lemma error_max_state_reachable : reachable error_max_state.
Proof.
  exact (reachable_failed_decodes bad_start_state 1
           bad_start_state_reachable eq_refl ltac:(discriminate)
           4294967295 ltac:(lia)).
Qed.

Lemma total_max_state_reachable : reachable total_max_state.
Proof.
  exact (reachable_good_decodes initial_state reachable_initial eq_refl
           4294967295 ltac:(lia)).
Qed.

(** C2 as stated (the error counter goes up by exactly 1 on every decode of
    a frame with a bad start code) fails where the counter is 4294967295:
    that state is reachable, the destination is a valid object, the start
    code is 1, the decode returns [false], and the counter is 0 afterwards. *)
Lemma C2_counterexample_error_counter_wraps :
  reachable error_max_state /\
  frame_at error_max_state 0 = Some 1 /\
  demo_store !! 16 = Some (mkData 9 9 9 9 9) /\
  errorFramesReceived error_max_state = 4294967295 /\
  exists s',
    DMX_DecodeFrame 16 error_max_state demo_store
      = Some (false, s', demo_store) /\
    errorFramesReceived s' = 0 /\
    errorFramesReceived s' <> errorFramesReceived error_max_state + 1.
Proof.
  split; [exact error_max_state_reachable |].
  split; [reflexivity |]. split; [reflexivity |]. split; [reflexivity |].
  eexists. split.
  - apply (DMX_DecodeFrame_bad_start 16 error_max_state demo_store 1);
      [discriminate | reflexivity | discriminate].
  - split; [reflexivity | discriminate].
Qed.

(** C2 (bad start code, as the code has it).  For every frame whose first
    byte is not 0 and every non-null destination, [DMX_DecodeFrame] returns
    [false], adds 1 to the error counter modulo 2^32 (exactly 1 below
    4294967295, and back to 0 from 4294967295), and leaves the frame counter,
    the caller's objects and the rest of the module state as they were. *)
Theorem C2_decode_bad_start_counts_error
    (data : Z) (s : dmx_state) (m : gmap Z DMX_DataTypeDef) (b0 : Z) :
  data <> NULL -> frame_at s 0 = Some b0 -> b0 <> DMX_START_CODE ->
  is_uint32 (errorFramesReceived s) ->
  exists s',
    DMX_DecodeFrame data s m = Some (false, s', m) /\
    errorFramesReceived s' = (errorFramesReceived s + 1) mod 2 ^ 32 /\
    (errorFramesReceived s < 4294967295 ->
     errorFramesReceived s' = errorFramesReceived s + 1) /\
    (errorFramesReceived s = 4294967295 -> errorFramesReceived s' = 0) /\
    totalFramesReceived s' = totalFramesReceived s /\
    dmxFrame s' = dmxFrame s /\ indexDmx s' = indexDmx s /\
    dmxFlag s' = dmxFlag s /\ dmxChannel s' = dmxChannel s.
Proof.
  intros Hd H0 Hb He.
  exists (set_errorFramesReceived (uint32 (errorFramesReceived s + 1)) s).
  split; [apply (DMX_DecodeFrame_bad_start data s m b0); assumption |].
  fields. unfold uint32, is_uint32 in *. repeat split.
  - intros Hlt. apply Z.mod_small. lia.
  - intros ->. reflexivity.
Qed.

Lemma C2_decode_bad_start_counts_error_witness :
  exists s',
    DMX_DecodeFrame 16 bad_start_state demo_store = Some (false, s', demo_store) /\
    errorFramesReceived s' = errorFramesReceived bad_start_state + 1.
Proof.
  destruct (C2_decode_bad_start_counts_error 16 bad_start_state demo_store 1)
    as (s' & Hdec & _ & Hone & _).
  - discriminate.
  - reflexivity.
  - discriminate.
  - unfold is_uint32. vm_compute. split; [discriminate | reflexivity].
  - exists s'. split; [exact Hdec |]. apply Hone. vm_compute. reflexivity.
Defined.

(** C3 as stated (the frame counter goes up by exactly 1 on every successful
    decode) fails where the counter is 4294967295: that state is reachable,
    the stored address is 1, the start code is 0, the destination is a valid
    object, the decode returns [true], and the counter is 0 afterwards. *)
Lemma C3_counterexample_frame_counter_wraps :
  reachable total_max_state /\
  dmxChannel total_max_state = 1 /\
  frame_at total_max_state 0 = Some 0 /\
  demo_store !! 16 = Some (mkData 9 9 9 9 9) /\
  totalFramesReceived total_max_state = 4294967295 /\
  exists s' m',
    DMX_DecodeFrame 16 total_max_state demo_store = Some (true, s', m') /\
    totalFramesReceived s' = 0 /\
    totalFramesReceived s' <> totalFramesReceived total_max_state + 1.
Proof.
  split; [exact total_max_state_reachable |].
  split; [reflexivity |]. split; [reflexivity |]. split; [reflexivity |].
  split; [reflexivity |].
  eexists. eexists. split.
  - apply (DMX_DecodeFrame_good 16 total_max_state demo_store
             (mkData 9 9 9 9 9) 0 0 0 0 0); try reflexivity. discriminate.
  - split; [reflexivity | discriminate].
Qed.

(** C3 (successful decode, as the code has it).  For every stored address
    [a] in 1..506 and every 513-byte frame with start code 0,
    [DMX_DecodeFrame] on a valid destination returns [true] and leaves in the
    destination the bytes at [a + 0 .. a + 4] as red, green, blue, dimmer and
    flash, in that order; it adds 1 to the frame counter modulo 2^32 (exactly
    1 below 4294967295, and back to 0 from 4294967295) and changes neither
    the frame, nor the error counter, nor any other object. *)
Theorem C3_decode_extracts_five_channels
    (data : Z) (s : dmx_state) (m : gmap Z DMX_DataTypeDef)
    (d0 : DMX_DataTypeDef) :
  data <> NULL -> m !! data = Some d0 ->
  length (dmxFrame s) = Z.to_nat DMX_FRAME_SIZE ->
  DMX_CHANNEL_MIN <= dmxChannel s <= DMX_CHANNEL_MAX ->
  frame_at s 0 = Some DMX_START_CODE ->
  is_uint32 (totalFramesReceived s) ->
  exists r g b k f s',
    frame_at s (dmxChannel s + 0) = Some r /\
    frame_at s (dmxChannel s + 1) = Some g /\
    frame_at s (dmxChannel s + 2) = Some b /\
    frame_at s (dmxChannel s + 3) = Some k /\
    frame_at s (dmxChannel s + 4) = Some f /\
    DMX_DecodeFrame data s m
      = Some (true, s', <[data := mkData r g b k f]> m) /\
    totalFramesReceived s' = (totalFramesReceived s + 1) mod 2 ^ 32 /\
    (totalFramesReceived s < 4294967295 ->
     totalFramesReceived s' = totalFramesReceived s + 1) /\
    (totalFramesReceived s = 4294967295 -> totalFramesReceived s' = 0) /\
    errorFramesReceived s' = errorFramesReceived s /\
    dmxFrame s' = dmxFrame s /\ indexDmx s' = indexDmx s /\
    dmxFlag s' = dmxFlag s /\ dmxChannel s' = dmxChannel s.
Proof.
  unfold DMX_CHANNEL_MIN, DMX_CHANNEL_MAX. intros Hd Hm Hl Hc H0 Ht.
  destruct (DMX_DecodeFrame_good_ex data s m d0 Hd Hm Hl)
    as (r & g & b & k & f & Hr & Hg & Hb & Hk & Hf & Hdec);
    [unfold DMX_FRAME_SIZE, DMX_CHANNELS_USED; lia | exact H0 |].
  exists r, g, b, k, f,
    (set_totalFramesReceived (uint32 (totalFramesReceived s + 1)) s).
  repeat (split; [assumption |]).
  fields. unfold uint32, is_uint32 in *. repeat split.
  - intros Hlt. apply Z.mod_small. lia.
  - intros ->. reflexivity.
Qed.

Lemma C3_decode_extracts_five_channels_witness :
  exists s',
    DMX_DecodeFrame 16 marker_state demo_store
      = Some (true, s', <[16 := mkData 10 11 12 13 14]> demo_store) /\
    totalFramesReceived s' = 1 /\ dmxFrame s' = dmxFrame marker_state.
Proof.
  destruct (C3_decode_extracts_five_channels 16 marker_state demo_store
              (mkData 9 9 9 9 9))
    as (r & g & b & k & f & s' & Hr & Hg & Hb & Hk & Hf & Hdec & _ & Hone & _
        & _ & Hframe & _).
  - discriminate.
  - reflexivity.
  - vm_compute. reflexivity.
  - vm_compute. split; discriminate.
  - vm_compute. reflexivity.
  - vm_compute. split; [discriminate | reflexivity].
  - exists s'.
    assert (Er : r = 10) by (vm_compute in Hr; congruence).
    assert (Eg : g = 11) by (vm_compute in Hg; congruence).
    assert (Eb : b = 12) by (vm_compute in Hb; congruence).
    assert (Ek : k = 13) by (vm_compute in Hk; congruence).
    assert (Ef : f = 14) by (vm_compute in Hf; congruence).
    subst. split; [exact Hdec |]. split; [| exact Hframe].
    rewrite Hone; vm_compute; reflexivity.
Defined.

(** * Further properties of the module *)

(** ** Channel address: what is stored *)

Lemma uint8_idem z : uint8 (uint8 z) = uint8 z.
Proof. apply uint8_small, uint8_range. Qed.

(** X1.  [DMX_SetChannel] followed by [DMX_GetChannel] is a round trip on
    1..255: the call returns [true], the address read back is the address
    given, and no other variable of the module changes.  On any argument the
    address read back is the argument modulo 256, or the previous address when
    that residue is 0; of two accepted calls the later one wins. *)
Theorem X1_set_get_channel_round_trip (ch ch' : Z) (s : dmx_state) :
  (1 <= ch <= 255 ->
   DMX_SetChannel ch s = (true, set_dmxChannel ch s) /\
   DMX_GetChannel (snd (DMX_SetChannel ch s)) = ch) /\
  DMX_GetChannel (snd (DMX_SetChannel ch s))
    = (if ch mod 256 =? 0 then DMX_GetChannel s else ch mod 256) /\
  (fst (DMX_SetChannel ch' (snd (DMX_SetChannel ch s))) = true ->
   DMX_GetChannel (snd (DMX_SetChannel ch' (snd (DMX_SetChannel ch s))))
     = ch' mod 256).
Proof.
  rewrite !DMX_SetChannel_char. unfold uint8. change (2 ^ 8) with 256.
  split; [| split].
  - intros Hch. rewrite (Z.mod_small ch 256) by lia.
    destruct (Z.eqb_spec ch 0); [lia |]. split; reflexivity.
  - destruct (ch mod 256 =? 0); reflexivity.
  - destruct (ch' mod 256 =? 0); simpl; [discriminate | reflexivity].
Qed.

Lemma X1_set_get_channel_round_trip_witness :
  DMX_GetChannel (snd (DMX_SetChannel 200 initial_state)) = 200 /\
  DMX_GetChannel (snd (DMX_SetChannel 77 (snd (DMX_SetChannel 200 initial_state))))
    = 77.
Proof.
  destruct (X1_set_get_channel_round_trip 200 77 initial_state)
    as (Hrt & _ & Hlast).
  split.
  - apply Hrt. lia.
  - rewrite Hlast; reflexivity.
Defined.

(** ** Initialisation *)

Lemma DMX_Init_char huart ch s :
  DMX_Init huart ch s =
    mkState huart (if ch mod 256 =? 0 then dmxChannel s else ch mod 256)
            0 0 0 0 (replicate 513 0) (rxBuf s) (huart :: hal_rx_requests s).
Proof.
  unfold DMX_Init. rewrite DMX_SetChannel_char, uint8_idem.
  unfold uint8. change (2 ^ 8) with 256.
  destruct (ch mod 256 =? 0); reflexivity.
Qed.

(** X2.  [DMX_Init] from any state: the handle is stored, the fill index and
    the flag are 0, the frame is 513 zero bytes, both counters are 0 and one
    reception is requested on the given handle.  The start channel is stored
    modulo 256; when that residue is 0 the call does not fail and the address
    of before the call is kept. *)
Theorem X2_init_postcondition (huart ch : Z) (s : dmx_state) :
  let s' := DMX_Init huart ch s in
  huart_dmx s' = huart /\
  dmxChannel s' = (if ch mod 256 =? 0 then dmxChannel s else ch mod 256) /\
  indexDmx s' = 0 /\ dmxFlag s' = 0 /\
  dmxFrame s' = replicate 513 0 /\
  totalFramesReceived s' = 0 /\ errorFramesReceived s' = 0 /\
  hal_rx_requests s' = huart :: hal_rx_requests s.
Proof.
  rewrite DMX_Init_char. fields. repeat split.
Qed.


Lemma frame_at_zero_frame s i :
  dmxFrame s = replicate 513 0 -> 0 <= i < DMX_FRAME_SIZE ->
  frame_at s i = Some 0.
Proof.
  unfold frame_at, DMX_FRAME_SIZE. intros -> Hi.
  replace (0 <=? i) with true by (symmetry; apply Z.leb_le; lia).
  apply lookup_replicate_2. lia.
Qed.

(** X3.  A decode right after [DMX_Init], before any byte has been received,
    succeeds: the zeroed frame has start code 0, so the destination receives
    five zeros and the frame counter goes from 0 to 1.  (The stored address
    must be one the module can hold: the start channel is accepted, or the
    address of before the call was in 1..255.) *)
Theorem X3_decode_after_init_reads_zeros
    (huart ch data : Z) (s : dmx_state) (m : gmap Z DMX_DataTypeDef) :
  ch mod 256 <> 0 \/ 1 <= dmxChannel s <= 255 ->
  data <> NULL -> is_Some (m !! data) ->
  exists s',
    DMX_DecodeFrame data (DMX_Init huart ch s) m
      = Some (true, s', <[data := mkData 0 0 0 0 0]> m) /\
    totalFramesReceived s' = 1 /\ errorFramesReceived s' = 0.
Proof.
  intros Hch Hd [d0 Hm]. rewrite DMX_Init_char.
  set (s0 := mkState _ _ _ _ _ _ _ _ _).
  assert (Hc : 1 <= dmxChannel s0 <= 255).
  { subst s0. fields. pose proof (Z.mod_pos_bound ch 256 ltac:(lia)).
    destruct (Z.eqb_spec (ch mod 256) 0); lia. }
  assert (Hf : forall i, 0 <= i < DMX_FRAME_SIZE -> frame_at s0 i = Some 0)
    by (intros i Hi; apply frame_at_zero_frame; [reflexivity | assumption]).
  eexists. split.
  - apply (DMX_DecodeFrame_good data s0 m d0 0 0 0 0 0); try assumption;
      apply Hf; unfold DMX_FRAME_SIZE, DMX_OFFSET_RED, DMX_OFFSET_GREEN,
        DMX_OFFSET_BLUE, DMX_OFFSET_DIMMER, DMX_OFFSET_FLASH; lia.
  - split; reflexivity.
Qed.

Lemma X3_decode_after_init_reads_zeros_witness :
  exists s',
    DMX_DecodeFrame 16 (DMX_Init 4096 10 initial_state) demo_store
      = Some (true, s', <[16 := mkData 0 0 0 0 0]> demo_store) /\
    totalFramesReceived s' = 1.
Proof.
  destruct (X3_decode_after_init_reads_zeros 4096 10 16 initial_state demo_store)
    as (s' & Hdec & Ht & _).
  - left. discriminate.
  - discriminate.
  - exists (mkData 9 9 9 9 9). reflexivity.
  - exists s'. split; assumption.
Defined.

(** ** Receiver: what ends up in the frame *)

Lemma byte_received_config huart b s :
  let s' := byte_received huart b s in
  huart_dmx s' = huart_dmx s /\ dmxChannel s' = dmxChannel s /\
  totalFramesReceived s' = totalFramesReceived s /\
  errorFramesReceived s' = errorFramesReceived s.
Proof.
  unfold byte_received, DMX_RxCallback. fields.
  destruct (huart =? huart_dmx s); fields; [| repeat split].
  destruct (indexDmx s <? DMX_FRAME_SIZE); fields; [| repeat split].
  destruct (DMX_FRAME_SIZE <=? uint16 (indexDmx s + 1)); fields; repeat split.
Qed.

Lemma bytes_received_config bytes : forall s,
  huart_dmx (bytes_received bytes s) = huart_dmx s /\
  dmxChannel (bytes_received bytes s) = dmxChannel s /\
  totalFramesReceived (bytes_received bytes s) = totalFramesReceived s /\
  errorFramesReceived (bytes_received bytes s) = errorFramesReceived s.
Proof.
  induction bytes as [|b bytes IH]; intros s; simpl; [repeat split |].
  destruct (IH (byte_received (huart_dmx s) b s)) as (-> & -> & -> & ->).
  apply byte_received_config.
Qed.

Lemma bytes_received_app bytes1 : forall bytes2 s,
  bytes_received (bytes1 ++ bytes2) s
    = bytes_received bytes2 (bytes_received bytes1 s).
Proof.
  induction bytes1 as [|b bytes1 IH]; intros bytes2 s; simpl;
    [reflexivity | apply IH].
Qed.

(** Bytes that fit in the room left are stored in order from the fill index
    on; the bytes of the frame before and after them are not touched. *)
Lemma bytes_received_frame bytes : forall s,
  0 <= indexDmx s ->
  indexDmx s + Z.of_nat (length bytes) <= DMX_FRAME_SIZE ->
  (Z.to_nat (indexDmx s) + length bytes <= length (dmxFrame s))%nat ->
  dmxFrame (bytes_received bytes s)
    = take (Z.to_nat (indexDmx s)) (dmxFrame s) ++ (uint8 <$> bytes)
      ++ drop (Z.to_nat (indexDmx s) + length bytes) (dmxFrame s).
Proof.
  unfold DMX_FRAME_SIZE.
  induction bytes as [|b bytes IH]; intros s H0 Hroom Hlen;
    cbn [bytes_received length] in *.
  - rewrite Nat.add_0_r, fmap_nil. symmetry. apply take_drop.
  - destruct (byte_received_room b s) as (Hi & _ & Hfr);
      [unfold DMX_FRAME_SIZE; lia |].
    rewrite IH; rewrite ?Hi, ?Hfr, ?length_insert; try lia.
    replace (Z.to_nat (indexDmx s + 1)) with (S (Z.to_nat (indexDmx s)))
      by lia.
    rewrite (take_S_r _ _ (uint8 b))
      by (apply list_lookup_insert_eq; lia).
    rewrite take_insert_ge by lia.
    rewrite drop_insert_lt by lia.
    rewrite <- app_assoc, fmap_cons.
    replace (S (Z.to_nat (indexDmx s)) + length bytes)%nat
      with (Z.to_nat (indexDmx s) + S (length bytes))%nat by lia.
    reflexivity.
Qed.

(** Once the frame is full, any number of further bytes is dropped. *)
Lemma bytes_received_overrun bytes : forall s,
  DMX_FRAME_SIZE <= indexDmx s ->
  indexDmx (bytes_received bytes s) = indexDmx s /\
  dmxFlag (bytes_received bytes s) = dmxFlag s /\
  dmxFrame (bytes_received bytes s) = dmxFrame s.
Proof.
  induction bytes as [|b bytes IH]; intros s Hfull; simpl; [repeat split |].
  destruct (byte_received_full b s Hfull) as (Hi & Hf & Hfr).
  destruct (IH (byte_received (huart_dmx s) b s)) as (-> & -> & ->);
    [rewrite Hi; assumption | repeat split; assumption].
Qed.

(** X4.  Reception of a frame.  From any state with a 513-byte frame, a break
    followed by [n <= 513] bytes on the DMX link stores the bytes, each
    reduced to 8 bits, in order at indices [0 .. n - 1]; the bytes of the
    previous frame from index [n] on stay in place.  The fill index is [n],
    the flag is raised exactly when [n = 513], and the address and the
    counters are not changed. *)
Theorem X4_break_then_bytes_fill_frame (s : dmx_state) (bytes : list Z) :
  length (dmxFrame s) = Z.to_nat DMX_FRAME_SIZE ->
  (length bytes <= Z.to_nat DMX_FRAME_SIZE)%nat ->
  let s1 := bytes_received bytes (DMX_ErrorCallback (huart_dmx s) s) in
  dmxFrame s1 = (uint8 <$> bytes) ++ drop (length bytes) (dmxFrame s) /\
  indexDmx s1 = Z.of_nat (length bytes) /\
  dmxFlag s1 = (if Z.of_nat (length bytes) =? DMX_FRAME_SIZE then 1 else 0) /\
  dmxChannel s1 = dmxChannel s /\
  totalFramesReceived s1 = totalFramesReceived s /\
  errorFramesReceived s1 = errorFramesReceived s.
Proof.
  unfold DMX_FRAME_SIZE. intros Hl Hn. cbv zeta.
  rewrite DMX_ErrorCallback_ours.
  set (s0 := HAL_UART_Receive_IT _ _).
  assert (Hi0 : indexDmx s0 = 0) by reflexivity.
  assert (Hf0 : dmxFlag s0 = 0) by reflexivity.
  assert (Hfr0 : dmxFrame s0 = dmxFrame s) by reflexivity.
  destruct (bytes_received_config bytes s0) as (_ & -> & -> & ->).
  split; [| split; [| split; [| repeat split]]].
  - rewrite bytes_received_frame; rewrite ?Hi0, ?Hfr0;
      unfold DMX_FRAME_SIZE; try lia.
    reflexivity.
  - destruct (Z.eq_dec (Z.of_nat (length bytes)) 513) as [E|E].
    + destruct (bytes_received_fills bytes s0) as (-> & _);
        unfold DMX_FRAME_SIZE; rewrite ?Hi0; try lia.
      intros ->. simpl in E. lia.
    + destruct (bytes_received_partial bytes s0) as (-> & _);
        unfold DMX_FRAME_SIZE; rewrite ?Hi0; lia.
  - destruct (Z.eqb_spec (Z.of_nat (length bytes)) 513) as [E|E].
    + destruct (bytes_received_fills bytes s0) as (_ & ->);
        unfold DMX_FRAME_SIZE; rewrite ?Hi0; try lia.
      intros ->. simpl in E. lia.
    + destruct (bytes_received_partial bytes s0) as (_ & ->);
        unfold DMX_FRAME_SIZE; rewrite ?Hi0; lia.
Qed.

Lemma X4_break_then_bytes_fill_frame_witness :
  dmxFrame (bytes_received [0; 300; 2]
              (DMX_ErrorCallback (huart_dmx full_state) full_state))
    = [0; 44; 2] ++ replicate 510 7.
Proof.
  destruct (X4_break_then_bytes_fill_frame full_state [0; 300; 2])
    as (Hfr & _).
  - vm_compute. reflexivity.
  - vm_compute. lia.
  - rewrite Hfr. vm_compute. reflexivity.
Defined.

(** X5.  Overrun.  From any state with a 513-byte frame, a break followed by
    513 bytes or more leaves exactly the first 513 of them, each reduced to 8
    bits, in the frame: every byte after the 513th is dropped, the fill index
    stays at 513 and the flag stays raised. *)
Theorem X5_bytes_beyond_frame_dropped (s : dmx_state) (bytes : list Z) :
  length (dmxFrame s) = Z.to_nat DMX_FRAME_SIZE ->
  (Z.to_nat DMX_FRAME_SIZE <= length bytes)%nat ->
  let s1 := bytes_received bytes (DMX_ErrorCallback (huart_dmx s) s) in
  dmxFrame s1 = uint8 <$> take (Z.to_nat DMX_FRAME_SIZE) bytes /\
  indexDmx s1 = DMX_FRAME_SIZE /\ dmxFlag s1 = 1.
Proof.
  unfold DMX_FRAME_SIZE. intros Hl Hn. cbv zeta.
  rewrite DMX_ErrorCallback_ours.
  set (s0 := HAL_UART_Receive_IT _ _).
  assert (Hi0 : indexDmx s0 = 0) by reflexivity.
  assert (Hfr0 : dmxFrame s0 = dmxFrame s) by reflexivity.
  set (first := take (Z.to_nat 513) bytes).
  replace (bytes_received bytes s0)
    with (bytes_received (drop (Z.to_nat 513) bytes)
            (bytes_received first s0))
    by (rewrite <- bytes_received_app; subst first;
        rewrite take_drop; reflexivity).
  assert (Hlen : length first = Z.to_nat 513)
    by (subst first; rewrite length_take; lia).
  destruct (bytes_received_fills first s0) as (Hi & Hf);
    unfold DMX_FRAME_SIZE; rewrite ?Hi0, ?Hlen; try lia.
  { intros E. rewrite E in Hlen. simpl in Hlen. lia. }
  destruct (bytes_received_overrun (drop (Z.to_nat 513) bytes)
              (bytes_received first s0)) as (-> & -> & ->);
    [rewrite Hi; unfold DMX_FRAME_SIZE; lia |].
  split; [| split; assumption].
  rewrite bytes_received_frame; rewrite ?Hi0, ?Hfr0, ?Hlen;
    unfold DMX_FRAME_SIZE; try lia.
  rewrite drop_ge by lia. rewrite app_nil_r. reflexivity.
Qed.

Lemma X5_bytes_beyond_frame_dropped_witness :
  dmxFrame (bytes_received (replicate 513 1 ++ [2; 3])
              (DMX_ErrorCallback (huart_dmx initial_state) initial_state))
    = replicate 513 1.
Proof.
  destruct (X5_bytes_beyond_frame_dropped initial_state
              (replicate 513 1 ++ [2; 3])) as (Hfr & _).
  - vm_compute. reflexivity.
  - vm_compute. lia.
  - rewrite Hfr. vm_compute. reflexivity.
Defined.

(** ** Receiver: index, re-arming, other UARTs *)

Lemma link_step_huart e s : huart_dmx (link_step e s) = huart_dmx s.
Proof.
  destruct e as [|b|]; cbn [link_step].
  - rewrite DMX_ErrorCallback_ours. reflexivity.
  - apply byte_received_huart.
  - apply poll_fields.
Qed.

(** X6.  Between two breaks the fill index only grows and saturates at 513:
    after a trace of bytes and polls without a break, it is the minimum of 513
    and the index before the trace plus the number of bytes. *)
Theorem X6_fill_index_saturates (tr : list link_event) (s : dmx_state) :
  no_break tr -> 0 <= indexDmx s <= DMX_FRAME_SIZE ->
  indexDmx (run tr s) = Z.min DMX_FRAME_SIZE (indexDmx s + count_bytes tr) /\
  indexDmx s <= indexDmx (run tr s).
Proof.
  unfold DMX_FRAME_SIZE, no_break. revert s.
  induction tr as [|e tr IH]; intros s Hnb Hi; cbn [run count_bytes].
  - split; lia.
  - pose proof (count_bytes_nonneg tr) as Hc.
    inversion Hnb as [|? ? He Htr]; subst.
    destruct e as [|b|]; cbn [link_step is_byte]; [discriminate | |].
    + destruct (Z.lt_ge_cases (indexDmx s) 513) as [Hlt|Hge].
      * destruct (byte_received_room b s) as (Hi' & _);
          [unfold DMX_FRAME_SIZE; lia |].
        destruct (IH (byte_received (huart_dmx s) b s) Htr) as (-> & _);
          rewrite Hi'; lia.
      * destruct (byte_received_full b s) as (Hi' & _);
          [unfold DMX_FRAME_SIZE; lia |].
        destruct (IH (byte_received (huart_dmx s) b s) Htr) as (-> & _);
          rewrite Hi'; lia.
    + destruct (poll_fields s) as (Hi' & _).
      destruct (IH (snd (DMX_IsNewFrameAvailable s)) Htr) as (-> & _);
        rewrite Hi'; lia.
Qed.

Lemma X6_fill_index_saturates_witness :
  indexDmx (run [Byte 1; Poll; Byte 2] full_state) = 513 /\
  indexDmx (run [Byte 1; Poll; Byte 2] bad_start_state) = 3.
Proof.
  split.
  - destruct (X6_fill_index_saturates [Byte 1; Poll; Byte 2] full_state)
      as (-> & _); [repeat constructor | vm_compute; split; discriminate |].
    vm_compute. reflexivity.
  - destruct (X6_fill_index_saturates [Byte 1; Poll; Byte 2] bad_start_state)
      as (-> & _); [repeat constructor | vm_compute; split; discriminate |].
    vm_compute. reflexivity.
Defined.

Lemma replicate_snoc_app {A} n (x : A) l :
  replicate n x ++ x :: l = replicate (S n) x ++ l.
Proof. induction n as [|n IH]; simpl; [reflexivity | rewrite IH; reflexivity]. Qed.

Lemma link_step_requests e s :
  hal_rx_requests (link_step e s)
    = match e with Poll => [] | _ => [huart_dmx s] end ++ hal_rx_requests s.
Proof.
  destruct e as [|b|]; cbn [link_step].
  - rewrite DMX_ErrorCallback_ours. reflexivity.
  - unfold byte_received, DMX_RxCallback. fields. rewrite Z.eqb_refl.
    destruct (indexDmx s <? DMX_FRAME_SIZE); fields; [| reflexivity].
    destruct (DMX_FRAME_SIZE <=? uint16 (indexDmx s + 1)); reflexivity.
  - unfold DMX_IsNewFrameAvailable. destruct (dmxFlag s =? 1); reflexivity.
Qed.

(** X7.  Re-arming.  Every break and every byte on the DMX link requests
    exactly one further single-byte reception on the module's handle, whether
    the byte was stored, completed the frame or was dropped; a poll requests
    none.  Over a trace, the requests made are as many as its breaks and
    bytes, and the stored handle does not change. *)
Theorem X7_every_callback_rearms_once (tr : list link_event) (s : dmx_state) :
  hal_rx_requests (run tr s)
    = replicate (count_callbacks tr) (huart_dmx s) ++ hal_rx_requests s /\
  huart_dmx (run tr s) = huart_dmx s.
Proof.
  revert s. induction tr as [|e tr IH]; intros s; cbn [run count_callbacks].
  - split; reflexivity.
  - destruct (IH (link_step e s)) as (-> & ->).
    rewrite link_step_huart, link_step_requests. split; [| reflexivity].
    destruct e; cbn [app]; try apply replicate_snoc_app; reflexivity.
Qed.

Lemma uart_step_huart e s : huart_dmx (uart_step e s) = huart_dmx s.
Proof.
  destruct e as [h|h b]; cbn [uart_step].
  - unfold DMX_ErrorCallback. destruct (h =? huart_dmx s); reflexivity.
  - destruct (Z.eqb_spec h (huart_dmx s)) as [->|Hne].
    + apply byte_received_huart.
    + unfold DMX_RxCallback.
      destruct (Z.eqb_spec h (huart_dmx s)); [contradiction | reflexivity].
Qed.

Lemma uart_step_foreign e s : uart_of e <> huart_dmx s -> uart_step e s = s.
Proof.
  destruct e as [h|h b]; cbn [uart_step uart_of]; intros Hne.
  - unfold DMX_ErrorCallback.
    destruct (Z.eqb_spec h (huart_dmx s)); [contradiction | reflexivity].
  - unfold DMX_RxCallback.
    destruct (Z.eqb_spec h (huart_dmx s)); [contradiction | reflexivity].
Qed.

(** X8.  Other UARTs.  Error and receive-complete callbacks for a handle
    other than the stored one change nothing at all (no index reset, no byte
    stored, no reception requested): a trace of callbacks from several UARTs
    leaves the module in the state that its DMX-link callbacks alone would
    have produced. *)
Theorem X8_foreign_uart_callbacks_ignored
    (tr : list uart_event) (s : dmx_state) :
  run_uart tr s
    = run_uart (filter (fun e => uart_of e = huart_dmx s) tr) s.
Proof.
  revert s. induction tr as [|e tr IH]; intros s; [reflexivity |].
  cbn [run_uart]. destruct (decide (uart_of e = huart_dmx s)) as [E|E].
  - rewrite filter_cons_True by assumption. cbn [run_uart].
    rewrite IH, uart_step_huart. reflexivity.
  - rewrite filter_cons_False by assumption.
    rewrite uart_step_foreign by assumption. apply IH.
Qed.

(** X9.  A frame that is not polled in time is not announced.  When the next
    break arrives after a complete frame and before the poll, the break
    withdraws the flag: the poll returns [false], although the 513 bytes of
    the frame are still in the buffer. *)
Theorem X9_break_before_poll_withdraws_frame
    (s : dmx_state) (bytes : list Z) :
  length (dmxFrame s) = Z.to_nat DMX_FRAME_SIZE ->
  length bytes = Z.to_nat DMX_FRAME_SIZE ->
  let s1 := bytes_received bytes (DMX_ErrorCallback (huart_dmx s) s) in
  let s2 := DMX_ErrorCallback (huart_dmx s1) s1 in
  fst (DMX_IsNewFrameAvailable s1) = true /\
  fst (DMX_IsNewFrameAvailable s2) = false /\
  dmxFrame s2 = uint8 <$> bytes /\ indexDmx s2 = 0.
Proof.
  unfold DMX_FRAME_SIZE. intros Hl Hn. cbv zeta.
  rewrite (DMX_ErrorCallback_ours (bytes_received _ _)).
  rewrite DMX_ErrorCallback_ours.
  set (s0 := HAL_UART_Receive_IT _ (set_dmxFlag 0 (set_indexDmx 0 s))).
  assert (Hi0 : indexDmx s0 = 0) by reflexivity.
  assert (Hfr0 : dmxFrame s0 = dmxFrame s) by reflexivity.
  destruct (bytes_received_fills bytes s0) as (_ & Hf);
    unfold DMX_FRAME_SIZE; rewrite ?Hi0, ?Hn; try lia.
  { intros E. rewrite E in Hn. simpl in Hn. lia. }
  unfold DMX_IsNewFrameAvailable. rewrite Hf. fields.
  repeat split.
  rewrite bytes_received_frame; rewrite ?Hi0, ?Hfr0, ?Hn;
    unfold DMX_FRAME_SIZE; try lia.
  rewrite drop_ge by lia. rewrite app_nil_r. reflexivity.
Qed.

Lemma X9_break_before_poll_withdraws_frame_witness :
  let s1 := bytes_received (replicate 513 7)
              (DMX_ErrorCallback (huart_dmx initial_state) initial_state) in
  fst (DMX_IsNewFrameAvailable (DMX_ErrorCallback (huart_dmx s1) s1)) = false.
Proof.
  apply (X9_break_before_poll_withdraws_frame initial_state (replicate 513 7)).
  - vm_compute. reflexivity.
  - vm_compute. reflexivity.
Defined.

(** ** Decoder: inversion *)

(** Every defined result of [DMX_DecodeFrame] comes from one of its three
    paths. *)
Lemma DMX_DecodeFrame_inv data s m b s' m' :
  DMX_DecodeFrame data s m = Some (b, s', m') ->
  (data = NULL /\ b = false /\ s' = s /\ m' = m) \/
  (data <> NULL /\ b = false /\ m' = m /\
   (exists b0, frame_at s 0 = Some b0 /\ b0 <> DMX_START_CODE) /\
   s' = set_errorFramesReceived (uint32 (errorFramesReceived s + 1)) s) \/
  (data <> NULL /\ b = true /\ frame_at s 0 = Some DMX_START_CODE /\
   s' = set_totalFramesReceived (uint32 (totalFramesReceived s + 1)) s /\
   exists d0 r g bl k f,
     m !! data = Some d0 /\
     frame_at s (dmxChannel s + DMX_OFFSET_RED) = Some r /\
     frame_at s (dmxChannel s + DMX_OFFSET_GREEN) = Some g /\
     frame_at s (dmxChannel s + DMX_OFFSET_BLUE) = Some bl /\
     frame_at s (dmxChannel s + DMX_OFFSET_DIMMER) = Some k /\
     frame_at s (dmxChannel s + DMX_OFFSET_FLASH) = Some f /\
     m' = <[data := mkData r g bl k f]> m).
Proof.
  intros H. destruct (Z.eq_dec data NULL) as [->|Hnn].
  - left. inversion H. auto.
  - right. pose proof H as H'. unfold DMX_DecodeFrame in H'.
    destruct (Z.eqb_spec data NULL) as [|_]; [contradiction |].
    destruct (frame_at s 0) as [b0|] eqn:H0; [| discriminate].
    destruct (Z.eq_dec b0 DMX_START_CODE) as [->|Hb0].
    + right. simpl in H'.
      unfold store_red, store_green, store_blue, store_dimmer, store_flash
        in H'.
      destruct (frame_at s (dmxChannel s + DMX_OFFSET_RED)) as [r|] eqn:Hr;
        [| discriminate].
      destruct (m !! data) as [d0|] eqn:Hm; [| discriminate].
      simpl in H'.
      destruct (frame_at s (dmxChannel s + DMX_OFFSET_GREEN)) as [g|] eqn:Hg;
        [| discriminate].
      rewrite lookup_insert_eq in H'. simpl in H'.
      destruct (frame_at s (dmxChannel s + DMX_OFFSET_BLUE)) as [bl|] eqn:Hb;
        [| discriminate].
      rewrite lookup_insert_eq in H'. simpl in H'.
      destruct (frame_at s (dmxChannel s + DMX_OFFSET_DIMMER)) as [k|] eqn:Hk;
        [| discriminate].
      rewrite lookup_insert_eq in H'. simpl in H'.
      destruct (frame_at s (dmxChannel s + DMX_OFFSET_FLASH)) as [f|] eqn:Hf;
        [| discriminate].
      clear H'.
      rewrite (DMX_DecodeFrame_good data s m d0 r g bl k f) in H
        by (assumption || reflexivity).
      inversion H; subst. repeat (split; [assumption || reflexivity |]).
      exists d0, r, g, bl, k, f. repeat split; reflexivity.
    + left. clear H'.
      rewrite (DMX_DecodeFrame_bad_start data s m b0) in H by assumption.
      inversion H; subst. repeat (split; [assumption || reflexivity |]).
      split; [| reflexivity]. exists b0. split; [reflexivity | assumption].
Qed.

(** ** Receiver and decoder together *)

(** A break and 513 bytes: the frame is the bytes, the configuration and the
    counters are as before. *)
Lemma reception_complete s bytes :
  length (dmxFrame s) = Z.to_nat DMX_FRAME_SIZE ->
  length bytes = Z.to_nat DMX_FRAME_SIZE ->
  let s1 := bytes_received bytes (DMX_ErrorCallback (huart_dmx s) s) in
  dmxFrame s1 = uint8 <$> bytes /\ dmxChannel s1 = dmxChannel s /\
  totalFramesReceived s1 = totalFramesReceived s /\
  errorFramesReceived s1 = errorFramesReceived s.
Proof.
  unfold DMX_FRAME_SIZE. intros Hl Hn. cbv zeta.
  rewrite DMX_ErrorCallback_ours.
  set (s0 := HAL_UART_Receive_IT _ _).
  assert (Hi0 : indexDmx s0 = 0) by reflexivity.
  assert (Hfr0 : dmxFrame s0 = dmxFrame s) by reflexivity.
  destruct (bytes_received_config bytes s0) as (_ & -> & -> & ->).
  split; [| repeat split].
  rewrite bytes_received_frame; rewrite ?Hi0, ?Hfr0, ?Hn;
    unfold DMX_FRAME_SIZE; try lia.
  rewrite drop_ge by lia. rewrite app_nil_r. reflexivity.
Qed.

Lemma frame_at_fmap s bytes i x :
  dmxFrame s = uint8 <$> bytes -> 0 <= i ->
  bytes !! Z.to_nat i = Some x -> frame_at s i = Some (uint8 x).
Proof.
  unfold frame_at. intros -> Hi Hx.
  replace (0 <=? i) with true by (symmetry; apply Z.leb_le; lia).
  rewrite list_lookup_fmap, Hx. reflexivity.
Qed.

(** X10.  From the wire to the destination.  After a break and 513 bytes on
    the DMX link, a decode looks at the first byte received, reduced to 8
    bits: when it is 0 the destination receives the bytes received at
    positions [a .. a + 4] (reduced to 8 bits) for the stored address [a], and
    the frame counter is incremented; otherwise the decode fails, the
    destination is not written and the error counter is incremented. *)
Theorem X10_received_frame_is_decoded
    (s : dmx_state) (bytes : list Z) (c0 data : Z)
    (m : gmap Z DMX_DataTypeDef) :
  length (dmxFrame s) = Z.to_nat DMX_FRAME_SIZE ->
  length bytes = Z.to_nat DMX_FRAME_SIZE ->
  bytes !! 0%nat = Some c0 ->
  1 <= dmxChannel s <= 255 ->
  data <> NULL -> is_Some (m !! data) ->
  let s1 := bytes_received bytes (DMX_ErrorCallback (huart_dmx s) s) in
  if uint8 c0 =? 0 then
    exists r g b k f,
      bytes !! Z.to_nat (dmxChannel s + 0) = Some r /\
      bytes !! Z.to_nat (dmxChannel s + 1) = Some g /\
      bytes !! Z.to_nat (dmxChannel s + 2) = Some b /\
      bytes !! Z.to_nat (dmxChannel s + 3) = Some k /\
      bytes !! Z.to_nat (dmxChannel s + 4) = Some f /\
      DMX_DecodeFrame data s1 m
        = Some (true,
                set_totalFramesReceived
                  (uint32 (totalFramesReceived s + 1)) s1,
                <[data := mkData (uint8 r) (uint8 g) (uint8 b)
                                 (uint8 k) (uint8 f)]> m)
  else
    DMX_DecodeFrame data s1 m
      = Some (false,
              set_errorFramesReceived (uint32 (errorFramesReceived s + 1)) s1,
              m).
Proof.
  intros Hl Hn H0 Hc Hd [d0 Hm]. cbv zeta.
  destruct (reception_complete s bytes Hl Hn) as (Hfr & Hch & Ht & He).
  set (s1 := bytes_received bytes _) in *.
  assert (Hs0 : frame_at s1 0 = Some (uint8 c0))
    by (apply (frame_at_fmap s1 bytes); [assumption | lia | exact H0]).
  destruct (Z.eqb_spec (uint8 c0) 0) as [E|E].
  - assert (Hk : forall i, 0 <= i <= 4 ->
               is_Some (bytes !! Z.to_nat (dmxChannel s + i))).
    { intros i Hi. apply lookup_lt_is_Some. rewrite Hn.
      unfold DMX_FRAME_SIZE. lia. }
    destruct (Hk 0) as [r Hr]; [lia |]. destruct (Hk 1) as [g Hg]; [lia |].
    destruct (Hk 2) as [b Hb]; [lia |]. destruct (Hk 3) as [k Hk3]; [lia |].
    destruct (Hk 4) as [f Hf]; [lia |].
    exists r, g, b, k, f. repeat (split; [assumption |]).
    rewrite <- Ht.
    apply (DMX_DecodeFrame_good data s1 m d0); try assumption;
      rewrite ?Hch; unfold DMX_START_CODE, DMX_OFFSET_RED, DMX_OFFSET_GREEN,
        DMX_OFFSET_BLUE, DMX_OFFSET_DIMMER, DMX_OFFSET_FLASH.
    + rewrite Hs0, E. reflexivity.
    + apply (frame_at_fmap s1 bytes); [assumption | lia | assumption].
    + apply (frame_at_fmap s1 bytes); [assumption | lia | assumption].
    + apply (frame_at_fmap s1 bytes); [assumption | lia | assumption].
    + apply (frame_at_fmap s1 bytes); [assumption | lia | assumption].
    + apply (frame_at_fmap s1 bytes); [assumption | lia | assumption].
  - rewrite <- He.
    apply (DMX_DecodeFrame_bad_start data s1 m (uint8 c0)); assumption.
Qed.

Lemma X10_received_frame_is_decoded_witness :
  DMX_DecodeFrame 16
    (bytes_received (map Z.of_nat (seq 0 513))
       (DMX_ErrorCallback (huart_dmx initial_state) initial_state))
    demo_store
  = Some (true,
          set_totalFramesReceived 1
            (bytes_received (map Z.of_nat (seq 0 513))
               (DMX_ErrorCallback (huart_dmx initial_state) initial_state)),
          <[16 := mkData 1 2 3 4 5]> demo_store).
Proof.
  pose proof (X10_received_frame_is_decoded initial_state
                (map Z.of_nat (seq 0 513)) 0 16 demo_store) as H.
  cbv zeta in H. change (uint8 0 =? 0) with true in H. cbv iota in H.
  destruct H as (r & g & b & k & f & Hr & Hg & Hb & Hk & Hf & Hdec).
  - vm_compute. reflexivity.
  - vm_compute. reflexivity.
  - reflexivity.
  - vm_compute. split; discriminate.
  - discriminate.
  - exists (mkData 9 9 9 9 9). reflexivity.
  - vm_compute in Hr, Hg, Hb, Hk, Hf.
    assert (r = 1) by congruence. assert (g = 2) by congruence.
    assert (b = 3) by congruence. assert (k = 4) by congruence.
    assert (f = 5) by congruence. subst. exact Hdec.
Defined.

(** ** Decoder: what it leaves alone, and what the counters count *)

Lemma uint32_add_l a b : uint32 (uint32 a + b) = uint32 (a + b).
Proof. unfold uint32. apply Zplus_mod_idemp_l. Qed.

(** X11.  A decode never touches the receiver: whatever it returns, the
    frame, the fill index, the ready flag, the stored address and handle and
    the reception requests are as before, so it neither consumes the frame nor
    clears the flag.  It writes no object other than its destination, and a
    decode that returns [false] writes nothing at all. *)
Theorem X11_decode_leaves_receiver_alone
    (data : Z) (s s' : dmx_state) (m m' : gmap Z DMX_DataTypeDef) (b : bool) :
  DMX_DecodeFrame data s m = Some (b, s', m') ->
  dmxFrame s' = dmxFrame s /\ indexDmx s' = indexDmx s /\
  dmxFlag s' = dmxFlag s /\ dmxChannel s' = dmxChannel s /\
  huart_dmx s' = huart_dmx s /\ rxBuf s' = rxBuf s /\
  hal_rx_requests s' = hal_rx_requests s /\
  (forall p, p <> data -> m' !! p = m !! p) /\
  (b = false -> m' = m).
Proof.
  intros H.
  destruct (DMX_DecodeFrame_inv _ _ _ _ _ _ H)
    as [(_ & -> & -> & ->)
       | [(_ & -> & -> & _ & ->)
         | (_ & -> & _ & -> & d0 & r & g & bl & k & f & _ & _ & _ & _ & _
            & _ & ->)]];
    fields; repeat split; try discriminate.
  intros p Hp. apply lookup_insert_ne. congruence.
Qed.

Lemma X11_decode_leaves_receiver_alone_witness :
  exists s' m',
    DMX_DecodeFrame 16 full_state demo_store = Some (false, s', m') /\
    dmxFlag s' = dmxFlag full_state /\ m' = demo_store.
Proof.
  assert (H : DMX_DecodeFrame 16 full_state demo_store
              = Some (false,
                      set_errorFramesReceived 1 full_state, demo_store))
    by (vm_compute; reflexivity).
  destruct (X11_decode_leaves_receiver_alone _ _ _ _ _ _ H)
    as (_ & _ & Hflag & _ & _ & _ & _ & _ & Hm).
  eexists. eexists. split; [exact H |]. split; [exact Hflag | reflexivity].
Defined.

(** X12.  Decoding the same frame twice.  A successful decode can be
    repeated without a new frame: the second call succeeds as well, leaves the
    same five values in the destination, and counts the frame a second
    time. *)
Theorem X12_decode_twice_counts_twice
    (data : Z) (s s1 : dmx_state) (m m1 : gmap Z DMX_DataTypeDef) :
  DMX_DecodeFrame data s m = Some (true, s1, m1) ->
  DMX_DecodeFrame data s1 m1
    = Some (true,
            set_totalFramesReceived (uint32 (totalFramesReceived s + 2)) s,
            m1).
Proof.
  intros H.
  destruct (DMX_DecodeFrame_inv _ _ _ _ _ _ H)
    as [(_ & Hb & _) | [(_ & Hb & _)
         | (Hd & _ & H0 & -> & d0 & r & g & bl & k & f & Hm & Hr & Hg & Hbl
            & Hk & Hf & ->)]]; try discriminate.
  rewrite (DMX_DecodeFrame_good data _ _ (mkData r g bl k f) r g bl k f);
    try assumption; [| apply lookup_insert_eq].
  fields. rewrite insert_insert_eq, uint32_add_l.
  replace (totalFramesReceived s + 1 + 1) with (totalFramesReceived s + 2)
    by lia.
  reflexivity.
Qed.

Lemma X12_decode_twice_counts_twice_witness :
  exists s2 m2,
    DMX_DecodeFrame 16
      (set_totalFramesReceived 1 initial_state)
      (<[16 := mkData 0 0 0 0 0]> demo_store) = Some (true, s2, m2) /\
    totalFramesReceived s2 = 2.
Proof.
  assert (H : DMX_DecodeFrame 16 initial_state demo_store
              = Some (true, set_totalFramesReceived 1 initial_state,
                      <[16 := mkData 0 0 0 0 0]> demo_store))
    by (vm_compute; reflexivity).
  eexists. eexists. split.
  - exact (X12_decode_twice_counts_twice _ _ _ _ _ H).
  - reflexivity.
Defined.

(** X13.  What the two counters count.  Over any sequence of decode calls
    with no reception in between, all the calls see the same start code: with
    start code 0 every call with a non-null destination returns [true] and
    the frame counter grows by the number of such calls; with another start
    code every call returns [false], the error counter grows by the number of
    calls with a non-null destination and no object is written.  Calls with a
    null destination return [false] and are counted nowhere.  Both counters
    are incremented modulo 2^32. *)
Theorem X13_counters_count_decode_calls
    (ds : list Z) (s s' : dmx_state) (m m' : gmap Z DMX_DataTypeDef)
    (bs : list bool) (b0 : Z) :
  decode_calls ds s m = Some (bs, s', m') ->
  frame_at s 0 = Some b0 ->
  is_uint32 (totalFramesReceived s) -> is_uint32 (errorFramesReceived s) ->
  bs = (fun d => negb (d =? NULL) && (b0 =? DMX_START_CODE)) <$> ds /\
  totalFramesReceived s'
    = uint32 (totalFramesReceived s
              + (if b0 =? DMX_START_CODE then count_non_null ds else 0)) /\
  errorFramesReceived s'
    = uint32 (errorFramesReceived s
              + (if b0 =? DMX_START_CODE then 0 else count_non_null ds)) /\
  (b0 <> DMX_START_CODE -> m' = m) /\
  dmxFrame s' = dmxFrame s.
Proof.
  revert s m bs s' m'.
  induction ds as [|d ds IH]; intros s m bs s' m' H H0 Ht He.
  - inversion H; subst. cbn [count_non_null fmap list_fmap].
    destruct (b0 =? DMX_START_CODE);
      rewrite !Z.add_0_r, !uint32_small by assumption; repeat split.
  - cbn [decode_calls] in H.
    destruct (DMX_DecodeFrame d s m) as [[[b s1] m1]|] eqn:Hd;
      [| discriminate].
    cbn in H.
    destruct (decode_calls ds s1 m1) as [[[bs1 s2] m2]|] eqn:Hrest;
      [| discriminate].
    cbn in H. inversion H; subst; clear H.
    assert (H0' : frame_at s1 0 = Some b0).
    { destruct (DMX_DecodeFrame_inv _ _ _ _ _ _ Hd)
        as [(_ & _ & -> & _) | [(_ & _ & _ & _ & ->) | (_ & _ & _ & -> & _)]];
        exact H0. }
    rewrite fmap_cons. cbn [count_non_null].
    destruct (DMX_DecodeFrame_inv _ _ _ _ _ _ Hd)
      as [(-> & -> & -> & ->)
         | [(Hnn & -> & -> & (b0' & H0b & Hb0') & ->)
           | (Hnn & -> & H0g & -> & _)]].
    + destruct (IH _ _ _ _ _ Hrest H0' Ht He) as (-> & -> & -> & Hm & ->).
      change (NULL =? NULL) with true. cbn [negb andb].
      rewrite !Z.add_0_l. repeat split; assumption.
    + assert (b0' = b0) by congruence. subst b0'.
      destruct (IH _ _ _ _ _ Hrest H0' Ht (uint32_range _))
        as (-> & -> & -> & Hm & ->).
      destruct (Z.eqb_spec d NULL) as [|_]; [contradiction |].
      destruct (Z.eqb_spec b0 DMX_START_CODE) as [|_]; [contradiction |].
      fields. rewrite uint32_add_l, Z.add_assoc. cbn [negb andb].
      repeat split. intros _. apply Hm. assumption.
    + assert (b0 = DMX_START_CODE) by congruence. subst b0.
      destruct (IH _ _ _ _ _ Hrest H0' (uint32_range _) He)
        as (-> & -> & -> & _ & ->).
      destruct (Z.eqb_spec d NULL) as [|_]; [contradiction |].
      change (DMX_START_CODE =? DMX_START_CODE) with true.
      fields. rewrite uint32_add_l, Z.add_assoc. cbn [negb andb].
      repeat split. intros Hne. contradiction.
Qed.

Lemma X13_counters_count_decode_calls_witness :
  exists bs s' m',
    decode_calls [16; 0; 16] bad_start_state demo_store = Some (bs, s', m') /\
    bs = [false; false; false] /\
    errorFramesReceived s' = 2 /\ totalFramesReceived s' = 0.
Proof.
  assert (H : decode_calls [16; 0; 16] bad_start_state demo_store
              = Some ([false; false; false],
                      set_errorFramesReceived 2 bad_start_state, demo_store))
    by (vm_compute; reflexivity).
  destruct (X13_counters_count_decode_calls _ _ _ _ _ _ 1 H)
    as (Hbs & Ht & He & _).
  - reflexivity.
  - vm_compute. split; [discriminate | reflexivity].
  - vm_compute. split; [discriminate | reflexivity].
  - eexists. eexists. eexists. split; [exact H |].
    split; [reflexivity |]. split; [rewrite He | rewrite Ht]; reflexivity.
Defined.

(** X14.  The address that a decode uses.  After [DMX_SetChannel(ch)] with
    [ch] not a multiple of 256, a decode of a 513-byte frame with start code 0
    extracts the five bytes at [ch mod 256 + 0 .. ch mod 256 + 4]: the new
    address applies to the frame already in the buffer, and an argument above
    255 selects the channels of its residue. *)
Theorem X14_decode_uses_address_modulo_256
    (ch data : Z) (s : dmx_state) (m : gmap Z DMX_DataTypeDef) :
  ch mod 256 <> 0 ->
  length (dmxFrame s) = Z.to_nat DMX_FRAME_SIZE ->
  frame_at s 0 = Some DMX_START_CODE ->
  data <> NULL -> is_Some (m !! data) ->
  exists r g b k f s',
    frame_at s (ch mod 256 + 0) = Some r /\
    frame_at s (ch mod 256 + 1) = Some g /\
    frame_at s (ch mod 256 + 2) = Some b /\
    frame_at s (ch mod 256 + 3) = Some k /\
    frame_at s (ch mod 256 + 4) = Some f /\
    DMX_DecodeFrame data (snd (DMX_SetChannel ch s)) m
      = Some (true, s', <[data := mkData r g b k f]> m).
Proof.
  intros Hch Hl H0 Hd [d0 Hm]. rewrite DMX_SetChannel_char.
  unfold uint8. change (2 ^ 8) with 256.
  destruct (Z.eqb_spec (ch mod 256) 0) as [|_]; [contradiction |].
  cbn [snd].
  pose proof (Z.mod_pos_bound ch 256 ltac:(lia)) as Hb.
  destruct (DMX_DecodeFrame_good_ex data (set_dmxChannel (ch mod 256) s)
              m d0 Hd Hm Hl)
    as (r & g & b & k & f & Hr & Hg & Hbl & Hk & Hf & Hdec);
    [fields; unfold DMX_FRAME_SIZE, DMX_CHANNELS_USED; lia | exact H0 |].
  exists r, g, b, k, f. eexists.
  repeat (split; [assumption |]). exact Hdec.
Qed.

Lemma X14_decode_uses_address_modulo_256_witness :
  exists s',
    DMX_DecodeFrame 16 (snd (DMX_SetChannel 300 marker_state)) demo_store
      = Some (true, s', <[16 := mkData 44 45 46 47 48]> demo_store).
Proof.
  destruct (X14_decode_uses_address_modulo_256 300 16 marker_state demo_store)
    as (r & g & b & k & f & s' & Hr & Hg & Hb & Hk & Hf & Hdec).
  - discriminate.
  - vm_compute. reflexivity.
  - vm_compute. reflexivity.
  - discriminate.
  - exists (mkData 9 9 9 9 9). reflexivity.
  - vm_compute in Hr, Hg, Hb, Hk, Hf.
    assert (r = 44) by congruence. assert (g = 45) by congruence.
    assert (b = 46) by congruence. assert (k = 47) by congruence.
    assert (f = 48) by congruence. subst. exists s'. exact Hdec.
Defined.

(** ** Dimmer: further properties *)

(** The result of [DMX_ApplyDimmer] on two objects (or on one object used as
    source and destination). *)
Lemma DMX_ApplyDimmer_result data output m d :
  data <> NULL -> output <> NULL ->
  m !! data = Some d -> is_Some (m !! output) -> data_wf d ->
  DMX_ApplyDimmer data output m
    = Some (<[output := mkData (scale (red d) (dimmer d))
                               (scale (green d) (dimmer d))
                               (scale (blue d) (dimmer d))
                               (dimmer d) (flash d)]> m).
Proof.
  intros Hd Ho Hmd [o Hmo] (Hr & Hg & Hb & Hk & Hf).
  unfold DMX_ApplyDimmer.
  destruct (Z.eqb_spec data NULL) as [|_]; [contradiction |].
  destruct (Z.eqb_spec output NULL) as [|_]; [contradiction |].
  cbn [orb].
  unfold load, store_red, store_green, store_blue, store_dimmer, store_flash.
  destruct (decide (data = output)) as [->|Hne].
  - rewrite Hmd. simpl.
    repeat (rewrite ?lookup_insert_eq, ?insert_insert_eq; simpl).
    rewrite !dimmer_expr_exact by assumption. reflexivity.
  - rewrite Hmd, Hmo. simpl.
    repeat (rewrite ?lookup_insert_eq, ?insert_insert_eq,
              ?(lookup_insert_ne _ output data) by congruence;
            rewrite ?Hmd; simpl).
    rewrite !dimmer_expr_exact by assumption. reflexivity.
Qed.

Lemma scale_le_colour r k : is_uint8 r -> is_uint8 k -> scale r k <= r.
Proof.
  unfold is_uint8, scale. intros Hr Hk.
  apply Z.div_le_upper_bound; nia.
Qed.

Lemma scale_le_dimmer r k : is_uint8 r -> is_uint8 k -> scale r k <= k.
Proof.
  unfold is_uint8, scale. intros Hr Hk.
  apply Z.div_le_upper_bound; nia.
Qed.

(** X15.  The dimmer never brightens.  For a source of five bytes, each
    colour left by [DMX_ApplyDimmer] is at most the colour of the source and
    at most the dimmer; with dimmer 255 the destination is an exact copy of
    the source, and with dimmer 0 the three colours are 0. *)
Theorem X15_dimmer_never_brightens
    (data output : Z) (m : gmap Z DMX_DataTypeDef) (d : DMX_DataTypeDef) :
  data <> NULL -> output <> NULL ->
  m !! data = Some d -> is_Some (m !! output) -> data_wf d ->
  exists m' out,
    DMX_ApplyDimmer data output m = Some m' /\ m' !! output = Some out /\
    red out <= red d /\ green out <= green d /\ blue out <= blue d /\
    red out <= dimmer d /\ green out <= dimmer d /\ blue out <= dimmer d /\
    (dimmer d = 255 -> out = d) /\
    (dimmer d = 0 -> red out = 0 /\ green out = 0 /\ blue out = 0).
Proof.
  intros Hd Ho Hmd Hmo Hwf.
  rewrite (DMX_ApplyDimmer_result data output m d) by assumption.
  destruct Hwf as (Hr & Hg & Hb & Hk & Hf).
  eexists. eexists. split; [reflexivity |].
  split; [apply lookup_insert_eq |]. cbn [red green blue dimmer flash].
  repeat (split; [auto using scale_le_colour, scale_le_dimmer; fail |]).
  split.
  - intros E. destruct d as [r g b k f]. cbn [red green blue dimmer flash] in *.
    subst k. unfold scale. rewrite !Z.div_mul by lia. reflexivity.
  - intros ->. unfold scale. rewrite !Z.mul_0_r. repeat split.
Qed.

Lemma X15_dimmer_never_brightens_witness :
  exists m',
    DMX_ApplyDimmer 16 16 (<[16 := mkData 200 150 100 255 7]> demo_store)
      = Some m' /\
    m' !! 16 = Some (mkData 200 150 100 255 7).
Proof.
  destruct (X15_dimmer_never_brightens 16 16
              (<[16 := mkData 200 150 100 255 7]> demo_store)
              (mkData 200 150 100 255 7))
    as (m' & out & Happ & Hout & _ & _ & _ & _ & _ & _ & Hfull & _).
  - discriminate.
  - discriminate.
  - reflexivity.
  - eexists. reflexivity.
  - unfold data_wf, is_uint8. simpl. lia.
  - exists m'. split; [exact Happ |]. rewrite Hout, Hfull; reflexivity.
Defined.

Lemma frame_at_byte s i x :
  Forall is_uint8 (dmxFrame s) -> frame_at s i = Some x -> is_uint8 x.
Proof.
  unfold frame_at. intros Hall Hx.
  destruct (0 <=? i); [| discriminate].
  exact (proj1 (Forall_lookup _ _) Hall _ _ Hx).
Qed.

Lemma marker_state_reachable : reachable marker_state.
Proof.
  unfold marker_state.
  apply (reachable_step
           (run (Break :: map Byte (map Z.of_nat (seq 0 513))) initial_state)).
  - apply reachable_run, reachable_initial.
  - apply step_set_channel.
Qed.

(** X16.  Decode, then dimmer.  In a reachable state whose frame has start
    code 0, a decode into [*data] followed by [DMX_ApplyDimmer(data, output)]
    leaves in [*output] the three colour bytes of the frame at the stored
    address, each scaled by the dimmer byte ([floor (colour * dimmer / 255)]),
    with the dimmer and flash bytes copied; [data] and [output] may be the
    same object. *)
Theorem X16_decode_then_dimmer
    (data output : Z) (s : dmx_state) (m : gmap Z DMX_DataTypeDef) :
  reachable s -> frame_at s 0 = Some DMX_START_CODE ->
  data <> NULL -> output <> NULL ->
  is_Some (m !! data) -> is_Some (m !! output) ->
  exists r g b k f s' m1 m2,
    frame_at s (dmxChannel s + 0) = Some r /\
    frame_at s (dmxChannel s + 1) = Some g /\
    frame_at s (dmxChannel s + 2) = Some b /\
    frame_at s (dmxChannel s + 3) = Some k /\
    frame_at s (dmxChannel s + 4) = Some f /\
    DMX_DecodeFrame data s m = Some (true, s', m1) /\
    DMX_ApplyDimmer data output m1 = Some m2 /\
    m2 !! output = Some (mkData (scale r k) (scale g k) (scale b k) k f) /\
    (data <> output -> m2 !! data = Some (mkData r g b k f)).
Proof.
  intros Hreach H0 Hd Ho [d0 Hm] [o Hmo].
  destruct (reachable_inv s Hreach) as [Hc _ _ Hl Hbytes _ _].
  destruct (DMX_DecodeFrame_good_ex data s m d0 Hd Hm Hl)
    as (r & g & b & k & f & Hr & Hg & Hb & Hk & Hf & Hdec);
    [unfold DMX_FRAME_SIZE, DMX_CHANNELS_USED; lia | exact H0 |].
  exists r, g, b, k, f. eexists. eexists. eexists.
  repeat (split; [eassumption |]).
  rewrite (DMX_ApplyDimmer_result data output _ (mkData r g b k f));
    try assumption.
  - split; [reflexivity |]. split; [apply lookup_insert_eq |].
    intros Hne. rewrite lookup_insert_ne by congruence.
    apply lookup_insert_eq.
  - apply lookup_insert_eq.
  - destruct (decide (output = data)) as [->|Hne].
    + rewrite lookup_insert_eq. eexists. reflexivity.
    + rewrite lookup_insert_ne by congruence. eexists. exact Hmo.
  - unfold data_wf. cbn [red green blue dimmer flash].
    repeat split; eapply frame_at_byte; eassumption.
Qed.

Lemma X16_decode_then_dimmer_witness :
  exists s' m1 m2,
    DMX_DecodeFrame 16 marker_state demo_store = Some (true, s', m1) /\
    DMX_ApplyDimmer 16 16 m1 = Some m2 /\
    m2 !! 16 = Some (mkData 0 0 0 13 14).
Proof.
  destruct (X16_decode_then_dimmer 16 16 marker_state demo_store)
    as (r & g & b & k & f & s' & m1 & m2 & Hr & Hg & Hb & Hk & Hf & Hdec
        & Happ & Hout & _).
  - exact marker_state_reachable.
  - vm_compute. reflexivity.
  - discriminate.
  - discriminate.
  - eexists. reflexivity.
  - eexists. reflexivity.
  - vm_compute in Hr, Hg, Hb, Hk, Hf.
    assert (r = 10) by congruence. assert (g = 11) by congruence.
    assert (b = 12) by congruence. assert (k = 13) by congruence.
    assert (f = 14) by congruence. subst.
    exists s', m1, m2. split; [exact Hdec |]. split; [exact Happ |].
    exact Hout.
Defined.

Lemma store_red_other p v m m' q :
  store_red p v m = Some m' -> q <> p -> m' !! q = m !! q.
Proof.
  unfold store_red. destruct (m !! p); [| discriminate]. simpl.
  intros [= <-] Hq. apply lookup_insert_ne. congruence.
Qed.

Lemma store_green_other p v m m' q :
  store_green p v m = Some m' -> q <> p -> m' !! q = m !! q.
Proof.
  unfold store_green. destruct (m !! p); [| discriminate]. simpl.
  intros [= <-] Hq. apply lookup_insert_ne. congruence.
Qed.

Lemma store_blue_other p v m m' q :
  store_blue p v m = Some m' -> q <> p -> m' !! q = m !! q.
Proof.
  unfold store_blue. destruct (m !! p); [| discriminate]. simpl.
  intros [= <-] Hq. apply lookup_insert_ne. congruence.
Qed.

Lemma store_dimmer_other p v m m' q :
  store_dimmer p v m = Some m' -> q <> p -> m' !! q = m !! q.
Proof.
  unfold store_dimmer. destruct (m !! p); [| discriminate]. simpl.
  intros [= <-] Hq. apply lookup_insert_ne. congruence.
Qed.

Lemma store_flash_other p v m m' q :
  store_flash p v m = Some m' -> q <> p -> m' !! q = m !! q.
Proof.
  unfold store_flash. destruct (m !! p); [| discriminate]. simpl.
  intros [= <-] Hq. apply lookup_insert_ne. congruence.
Qed.

(** X17.  What [DMX_ApplyDimmer] writes.  Whatever the contents of the
    source, a call that is defined changes no object other than [*output];
    with a null source or a null destination it changes no object at all. *)
Theorem X17_dimmer_writes_only_output
    (data output : Z) (m m' : gmap Z DMX_DataTypeDef) :
  DMX_ApplyDimmer data output m = Some m' ->
  (forall p, p <> output -> m' !! p = m !! p) /\
  (data = NULL \/ output = NULL -> m' = m).
Proof.
  unfold DMX_ApplyDimmer. intros H.
  destruct (Z.eqb_spec data NULL) as [Ed|Ed];
    [inversion H; split; auto |].
  destruct (Z.eqb_spec output NULL) as [Eo|Eo];
    [inversion H; split; auto |].
  cbn [orb] in H. split; [| intros [?|?]; contradiction].
  intros p Hp.
  repeat match type of H with
         | (?x ≫= _) = Some _ =>
             let E := fresh "E" in
             destruct x eqn:E; cbn [mbind option_bind] in H; [| discriminate]
         end.
  rewrite (store_flash_other _ _ _ _ p H Hp).
  repeat match goal with
         | E : store_red _ _ _ = Some ?m1 |- ?m1 !! p = _ =>
             rewrite (store_red_other _ _ _ _ p E Hp)
         | E : store_green _ _ _ = Some ?m1 |- ?m1 !! p = _ =>
             rewrite (store_green_other _ _ _ _ p E Hp)
         | E : store_blue _ _ _ = Some ?m1 |- ?m1 !! p = _ =>
             rewrite (store_blue_other _ _ _ _ p E Hp)
         | E : store_dimmer _ _ _ = Some ?m1 |- ?m1 !! p = _ =>
             rewrite (store_dimmer_other _ _ _ _ p E Hp)
         end.
  reflexivity.
Qed.

Lemma X17_dimmer_writes_only_output_witness :
  exists m',
    DMX_ApplyDimmer 16 32
      (<[16 := mkData 200 150 100 128 7]> {[32 := mkData 0 0 0 0 0]})
      = Some m' /\
    m' !! 16 = Some (mkData 200 150 100 128 7).
Proof.
  destruct (DMX_ApplyDimmer 16 32
              (<[16 := mkData 200 150 100 128 7]> {[32 := mkData 0 0 0 0 0]}))
    as [m'|] eqn:H; [| vm_compute in H; discriminate].
  exists m'. split; [reflexivity |].
  rewrite (proj1 (X17_dimmer_writes_only_output _ _ _ _ H) 16)
    by discriminate.
  reflexivity.
Defined.

(** ** Statistics *)

(** X18.  [DMX_GetStats] with each pointer null or pointing to an object of
    the caller: the error counter is written through [errorFrames] unless it
    is null, the frame counter through [totalFrames] unless it is null, and no
    other object is written.  When both pointers designate the same object it
    ends up holding the error counter; with two null pointers nothing is
    written. *)
Theorem X18_get_stats_writes_through_non_null
    (totalFrames errorFrames : Z) (s : dmx_state) (w : gmap Z Z) :
  totalFrames = NULL \/ is_Some (w !! totalFrames) ->
  errorFrames = NULL \/ is_Some (w !! errorFrames) ->
  exists w',
    DMX_GetStats totalFrames errorFrames s w = Some w' /\
    (errorFrames <> NULL -> w' !! errorFrames = Some (errorFramesReceived s)) /\
    (totalFrames <> NULL -> totalFrames <> errorFrames ->
     w' !! totalFrames = Some (totalFramesReceived s)) /\
    (forall p, p <> totalFrames -> p <> errorFrames -> w' !! p = w !! p) /\
    (totalFrames = NULL -> errorFrames = NULL -> w' = w).
Proof.
  intros Ht He. unfold DMX_GetStats, store_u32.
  destruct (Z.eqb_spec totalFrames NULL) as [Et|Et];
    destruct (Z.eqb_spec errorFrames NULL) as [Ee|Ee]; cbn [mbind option_bind].
  - exists w. repeat split; try contradiction; auto.
  - destruct He as [|[e He]]; [contradiction |]. rewrite He.
    eexists. split; [reflexivity |]. repeat split; try contradiction.
    + intros _. apply lookup_insert_eq.
    + intros p _ Hp. apply lookup_insert_ne. congruence.
  - destruct Ht as [|[t Ht]]; [contradiction |]. rewrite Ht.
    eexists. split; [reflexivity |]. repeat split; try contradiction.
    + intros _ _. apply lookup_insert_eq.
    + intros p Hp _. apply lookup_insert_ne. congruence.
  - destruct Ht as [|[t Ht]]; [contradiction |].
    destruct He as [|[e He]]; [contradiction |]. rewrite Ht.
    cbn [mbind option_bind].
    assert (Hsome : is_Some (<[totalFrames := totalFramesReceived s]> w
                               !! errorFrames)).
    { destruct (decide (totalFrames = errorFrames)) as [->|Hne].
      - rewrite lookup_insert_eq. eexists. reflexivity.
      - rewrite lookup_insert_ne by assumption. eexists. exact He. }
    destruct Hsome as [x ->]. cbn [mbind option_bind].
    eexists. split; [reflexivity |]. repeat split; try contradiction.
    + intros _. apply lookup_insert_eq.
    + intros _ Hne. rewrite lookup_insert_ne by congruence.
      apply lookup_insert_eq.
    + intros p Hpt Hpe. rewrite !lookup_insert_ne by congruence. reflexivity.
Qed.

Lemma X18_get_stats_writes_through_non_null_witness :
  exists w',
    DMX_GetStats 8 8 error_max_state {[8 := 0]} = Some w' /\
    w' !! 8 = Some 4294967295.
Proof.
  destruct (X18_get_stats_writes_through_non_null 8 8 error_max_state
              {[8 := 0]}) as (w' & Hget & Herr & _).
  - right. eexists. reflexivity.
  - right. eexists. reflexivity.
  - exists w'. split; [exact Hget |]. rewrite Herr; [reflexivity | discriminate].
Defined.

Lemma link_step_stats e s :
  totalFramesReceived (link_step e s) = totalFramesReceived s /\
  errorFramesReceived (link_step e s) = errorFramesReceived s /\
  dmxChannel (link_step e s) = dmxChannel s.
Proof.
  destruct e as [|b|]; cbn [link_step].
  - rewrite DMX_ErrorCallback_ours. repeat split.
  - destruct (byte_received_config (huart_dmx s) b s) as (_ & -> & -> & ->).
    repeat split.
  - unfold DMX_IsNewFrameAvailable. destruct (dmxFlag s =? 1); repeat split.
Qed.

(** X19.  Reception is not counted.  No break, byte or poll changes the
    frame counter, the error counter or the stored address: however many
    frames are received, completed, announced or overrun, the two counters
    only move when [DMX_DecodeFrame] is called (or are zeroed by
    [DMX_ResetStats] and [DMX_Init]). *)
Theorem X19_reception_does_not_count (tr : list link_event) (s : dmx_state) :
  totalFramesReceived (run tr s) = totalFramesReceived s /\
  errorFramesReceived (run tr s) = errorFramesReceived s /\
  dmxChannel (run tr s) = dmxChannel s.
Proof.
  revert s. induction tr as [|e tr IH]; intros s; cbn [run];
    [repeat split |].
  destruct (IH (link_step e s)) as (-> & -> & ->). apply link_step_stats.
Qed.

(** ** Safety of the reception *)

Lemma full_state_reachable : reachable full_state.
Proof. unfold full_state. apply reachable_run, reachable_initial. Qed.

(** X20.  In every reachable state the fill index is between 0 and 513 and,
    whenever [DMX_RxCallback] is about to store a byte (index below 513), the
    index designates an element of the 513-byte frame; every element of the
    frame is a byte, both counters fit in 32 bits and the stored address fits
    in 8 bits. *)
Theorem X20_reception_stays_inside_frame (s : dmx_state) :
  reachable s ->
  0 <= indexDmx s <= DMX_FRAME_SIZE /\
  (indexDmx s < DMX_FRAME_SIZE ->
   (Z.to_nat (indexDmx s) < length (dmxFrame s))%nat) /\
  Forall is_uint8 (dmxFrame s) /\
  is_uint32 (totalFramesReceived s) /\ is_uint32 (errorFramesReceived s) /\
  is_uint8 (dmxChannel s).
Proof.
  intros Hr. destruct (reachable_inv s Hr) as [Hc Hi _ Hl Hb Ht He].
  unfold DMX_FRAME_SIZE in *.
  split; [assumption |]. split; [intros Hlt; rewrite Hl; lia |].
  split; [assumption |]. split; [assumption |]. split; [assumption |].
  unfold is_uint8. lia.
Qed.

Lemma X20_reception_stays_inside_frame_witness :
  0 <= indexDmx full_state <= DMX_FRAME_SIZE /\
  Forall is_uint8 (dmxFrame full_state).
Proof.
  destruct (X20_reception_stays_inside_frame full_state full_state_reachable)
    as (Hi & _ & Hb & _).
  split; assumption.
Defined.

(** ** Decoding while a frame is being received *)

Lemma frame_at_beyond_prefix s1 s (prefix : list Z) i :
  dmxFrame s1 = prefix ++ drop (length prefix) (dmxFrame s) ->
  Z.of_nat (length prefix) <= i ->
  frame_at s1 i = frame_at s i.
Proof.
  unfold frame_at. intros -> Hi.
  replace (0 <=? i) with true by (symmetry; apply Z.leb_le; lia).
  rewrite lookup_app_r by lia. rewrite lookup_drop. f_equal. lia.
Qed.

(** X21.  A decode does not wait for the end of the frame.  After a break and
    the first [n] bytes of a new frame, with [1 <= n <= a] for the stored
    address [a] and a first byte that is 0 modulo 256, a decode succeeds and
    returns the five channel bytes of the frame received before: the start
    code is checked on the new frame, the channels are read from the old
    one. *)
Theorem X21_decode_mid_frame_reads_old_channels
    (s : dmx_state) (bytes : list Z) (c0 data : Z)
    (m : gmap Z DMX_DataTypeDef) :
  length (dmxFrame s) = Z.to_nat DMX_FRAME_SIZE ->
  bytes !! 0%nat = Some c0 -> uint8 c0 = 0 ->
  Z.of_nat (length bytes) <= dmxChannel s <= 255 ->
  data <> NULL -> is_Some (m !! data) ->
  let s1 := bytes_received bytes (DMX_ErrorCallback (huart_dmx s) s) in
  exists r g b k f s',
    frame_at s (dmxChannel s + 0) = Some r /\
    frame_at s (dmxChannel s + 1) = Some g /\
    frame_at s (dmxChannel s + 2) = Some b /\
    frame_at s (dmxChannel s + 3) = Some k /\
    frame_at s (dmxChannel s + 4) = Some f /\
    dmxFlag s1 = 0 /\
    DMX_DecodeFrame data s1 m
      = Some (true, s', <[data := mkData r g b k f]> m).
Proof.
  unfold DMX_FRAME_SIZE. intros Hl H0 Hc0 Hc Hd [d0 Hm]. cbv zeta.
  assert (Hn : (0 < length bytes)%nat)
    by (apply lookup_lt_Some in H0; exact H0).
  rewrite DMX_ErrorCallback_ours.
  set (s0 := HAL_UART_Receive_IT _ _).
  assert (Hi0 : indexDmx s0 = 0) by reflexivity.
  assert (Hf0 : dmxFlag s0 = 0) by reflexivity.
  assert (Hfr0 : dmxFrame s0 = dmxFrame s) by reflexivity.
  set (s1 := bytes_received bytes s0).
  assert (Hfr : dmxFrame s1
                = (uint8 <$> bytes) ++ drop (length (uint8 <$> bytes))
                                            (dmxFrame s)).
  { subst s1. rewrite bytes_received_frame; rewrite ?Hi0, ?Hfr0;
      unfold DMX_FRAME_SIZE; try lia.
    rewrite length_fmap. reflexivity. }
  destruct (bytes_received_config bytes s0) as (_ & Hch & _ & _).
  fold s1 in Hch. change (dmxChannel s0) with (dmxChannel s) in Hch.
  destruct (bytes_received_partial bytes s0) as (_ & Hflag);
    unfold DMX_FRAME_SIZE; rewrite ?Hi0; try lia.
  fold s1 in Hflag. rewrite Hf0 in Hflag.
  assert (Hl1 : length (dmxFrame s1) = Z.to_nat DMX_FRAME_SIZE).
  { rewrite Hfr, length_app, length_drop, length_fmap, Hl.
    unfold DMX_FRAME_SIZE. lia. }
  assert (Hs0 : frame_at s1 0 = Some DMX_START_CODE).
  { change (frame_at s1 0) with (dmxFrame s1 !! 0%nat). rewrite Hfr.
    rewrite lookup_app_l by (rewrite length_fmap; lia).
    rewrite list_lookup_fmap, H0. cbn. rewrite Hc0. reflexivity. }
  destruct (DMX_DecodeFrame_good_ex data s1 m d0 Hd Hm Hl1)
    as (r & g & b & k & f & Hr & Hg & Hb & Hk & Hf & Hdec);
    [rewrite Hch; unfold DMX_FRAME_SIZE, DMX_CHANNELS_USED; lia | exact Hs0 |].
  assert (Hold : forall i, dmxChannel s <= i ->
                           frame_at s1 i = frame_at s i).
  { intros i Hi. apply (frame_at_beyond_prefix s1 s (uint8 <$> bytes));
      [exact Hfr | rewrite length_fmap; lia]. }
  rewrite Hch in Hr, Hg, Hb, Hk, Hf.
  rewrite Hold in Hr, Hg, Hb, Hk, Hf by lia.
  exists r, g, b, k, f. eexists.
  repeat (split; [assumption |]). exact Hdec.
Qed.

Lemma X21_decode_mid_frame_reads_old_channels_witness :
  exists s',
    DMX_DecodeFrame 16
      (bytes_received [0; 99]
         (DMX_ErrorCallback (huart_dmx marker_state) marker_state))
      demo_store
    = Some (true, s', <[16 := mkData 10 11 12 13 14]> demo_store).
Proof.
  destruct (X21_decode_mid_frame_reads_old_channels marker_state [0; 99] 0 16
              demo_store)
    as (r & g & b & k & f & s' & Hr & Hg & Hb & Hk & Hf & _ & Hdec).
  - vm_compute. reflexivity.
  - reflexivity.
  - reflexivity.
  - vm_compute. split; discriminate.
  - discriminate.
  - eexists. reflexivity.
  - vm_compute in Hr, Hg, Hb, Hk, Hf.
    assert (r = 10) by congruence. assert (g = 11) by congruence.
    assert (b = 12) by congruence. assert (k = 13) by congruence.
    assert (f = 14) by congruence. subst. exists s'. exact Hdec.
Defined.
